(** * noaa: the point cache and the request/decode pipeline of [noaa.go]

    A shallow embedding of the Go package [noaa] (one source file,
    [noaa.go]).  Package-level state ([pointsCache], [config]) and the
    outbound requests are threaded explicitly; the collaborators the package
    calls into ([net/http], [net/url], [io], the streaming decoder of
    [encoding/json]) are an interface, [Collaborators]; the library
    functions whose results the properties below depend on
    ([strings.Replace], [fmt.Sprintf] with [%d] and [%s], [json.Unmarshal]
    at the shape [Alerts] decodes) are written out. *)

From Stdlib Require Import ZArith Strings.String Strings.Ascii Numbers.DecimalString.
From stdpp Require Import gmap strings list.

Set Warnings "-register-all".
Open Scope string_scope.

(** ** Go strings

    A Go [string] is a sequence of bytes: Rocq's [string] of [ascii]. *)

Module strings.

(** [strings.HasPrefix(s, prefix)]. *)
Fixpoint HasPrefix (s prefix : string) {struct prefix} : bool :=
  match prefix with
  | EmptyString => true
  | String p prefix' =>
      match s with
      | EmptyString => false
      | String c s' => Ascii.eqb c p && HasPrefix s' prefix'
      end
  end.

(** [strings.Contains(s, substr)]. *)
Fixpoint Contains (s substr : string) : bool :=
  HasPrefix s substr ||
  match s with
  | EmptyString => false
  | String _ s' => Contains s' substr
  end.

(** The scan of [strings.Replace(s, old, new, -1)] for a non-empty [old]:
    left to right, every non-overlapping instance of [old] is replaced by
    [new].  [skip] counts the bytes of a matched instance that are still
    to be stepped over. *)
Fixpoint replace_from (old new : string) (skip : nat) (s : string) : string :=
  match s with
  | EmptyString => EmptyString
  | String c rest =>
      match skip with
      | S k => replace_from old new k rest
      | O =>
          if HasPrefix s old
          then new ++ replace_from old new (String.length old - 1) rest
          else String c (replace_from old new 0 rest)
      end
  end.

(** [strings.Replace(s, old, new, -1)].  The only call site passes the
    non-empty [old = "http://"]; the library's rule for an empty [old]
    (an insertion at every rune boundary) is outside this definition. *)
Definition Replace (s old new : string) : string := replace_from old new 0 s.

End strings.

(** No instance of [old] starts inside a text put in front of [tail] and
    ends inside [tail]. *)
Definition no_straddle (old tail : string) : Prop :=
  forall a : string, a <> "" ->
    strings.HasPrefix (a +:+ tail) old = strings.HasPrefix a old.

(** The scheme rewriting [apiCall] applies to its endpoint. *)
Abbreviation https url := (strings.Replace url "http://" "https://").

(** [fmt.Sprintf("%d", n)] for a Go [int]: decimal digits, a leading [-]
    for a negative number. *)
Definition Sprintf_d (n : Z) : string := NilZero.string_of_int (Z.to_int n).

(** [fmt.Sprintf("%d %s", n, text)]. *)
Definition Sprintf_d_s (n : Z) (text : string) : string := Sprintf_d n +:+ " " +:+ text.

(** ** encoding/json, at the shape [Alerts] decodes

    [json.Unmarshal(data, &r)] first checks that [data] is one well-formed
    JSON text ([checkValid]) and only then stores it into [r]; a text that
    is not well formed is a [SyntaxError], a JSON value of the wrong kind
    for its Go target is an [UnmarshalTypeError], which the decoder saves
    (the first one) while it goes on decoding.  The model follows the same
    two phases: [parse] into a [value], then [decode_*] into the struct. *)

Module json.

Inductive value :=
| Null
| Bool (b : bool)
| Number (literal : string)
| Str (s : string)
| Array (elems : list value)
| Object (members : list (string * value)).

Inductive error :=
| SyntaxError
| UnmarshalTypeError (Value : string) (Type_ : string).

(** The double quote. *)
Definition quote : ascii := "034"%char.

Definition byte (c : ascii) : N := N_of_ascii c.
Definition chr (n : N) : ascii := ascii_of_N n.

Definition is_space (c : ascii) : bool :=
  Ascii.eqb c " " || Ascii.eqb c "009" || Ascii.eqb c "010" || Ascii.eqb c "013".

Definition is_digit (c : ascii) : bool := (48 <=? byte c)%N && (byte c <=? 57)%N.

Fixpoint skip_space (s : string) : string :=
  match s with
  | String c s' => if is_space c then skip_space s' else s
  | EmptyString => s
  end.

(** *** Numbers

    An optional minus sign, an integer part (a lone zero, or a non-zero
    digit and further digits), an optional fraction (a dot and at least
    one digit), an optional exponent (e or E, an optional sign, at least
    one digit). *)

Fixpoint span_digits (s : string) : string * string :=
  match s with
  | String c s' =>
      if is_digit c then let '(ds, rest) := span_digits s' in (String c ds, rest)
      else (EmptyString, s)
  | EmptyString => (EmptyString, s)
  end.

Definition scan_int (s : string) : option (string * string) :=
  match s with
  | String c s' =>
      if Ascii.eqb c "0" then Some ("0", s')
      else if is_digit c then let '(ds, rest) := span_digits s' in Some (String c ds, rest)
      else None
  | EmptyString => None
  end.

Definition scan_frac (s : string) : option (string * string) :=
  match s with
  | String "." s' =>
      match span_digits s' with
      | (EmptyString, _) => None
      | (ds, rest) => Some (String "." ds, rest)
      end
  | _ => Some (EmptyString, s)
  end.

Definition scan_exp (s : string) : option (string * string) :=
  match s with
  | String e s' =>
      if Ascii.eqb e "e" || Ascii.eqb e "E" then
        let '(sign, s'') :=
          match s' with
          | String g t => if Ascii.eqb g "+" || Ascii.eqb g "-"
                          then (String g EmptyString, t) else (EmptyString, s')
          | EmptyString => (EmptyString, s')
          end in
        match span_digits s'' with
        | (EmptyString, _) => None
        | (ds, rest) => Some (String e (sign +:+ ds), rest)
        end
      else Some (EmptyString, s)
  | EmptyString => Some (EmptyString, s)
  end.

Definition scan_number (s : string) : option (string * string) :=
  let '(minus, s1) :=
    match s with
    | String "-" t => ("-", t)
    | _ => (EmptyString, s)
    end in
  match scan_int s1 with
  | None => None
  | Some (i, s2) =>
      match scan_frac s2 with
      | None => None
      | Some (f, s3) =>
          match scan_exp s3 with
          | None => None
          | Some (e, s4) => Some (minus +:+ i +:+ f +:+ e, s4)
          end
      end
  end.

(** *** String literals

    The scanner rejects a control byte (below 0x20) and an escape other
    than the eight one-letter ones and [\uXXXX]; unquoting turns an
    escape into the byte or the UTF-8 encoding of the rune it names and
    coerces the literal to well-formed UTF-8 (an ill-formed byte becomes
    U+FFFD). *)

Definition hex_digit (c : ascii) : option N :=
  let b := byte c in
  if (48 <=? b)%N && (b <=? 57)%N then Some (b - 48)%N
  else if (97 <=? b)%N && (b <=? 102)%N then Some (b - 87)%N
  else if (65 <=? b)%N && (b <=? 70)%N then Some (b - 55)%N
  else None.

Definition hex4 (a b c d : ascii) : option N :=
  match hex_digit a, hex_digit b, hex_digit c, hex_digit d with
  | Some x, Some y, Some z, Some w => Some (((x * 16 + y) * 16 + z) * 16 + w)%N
  | _, _, _, _ => None
  end.

(** [getu4]: the rune of a [\uXXXX] escape at the head of [s]. *)
Definition getu4 (s : string) : option N :=
  match s with
  | String b (String u (String h1 (String h2 (String h3 (String h4 _))))) =>
      if Ascii.eqb b "\" && Ascii.eqb u "u" then hex4 h1 h2 h3 h4 else None
  | _ => None
  end.

Definition RuneError : N := 65533.

(** [utf8.EncodeRune]. *)
Definition EncodeRune (r : N) : string :=
  if (r <? 128)%N then String (chr r) EmptyString
  else if (r <? 2048)%N then
    String (chr (192 + r / 64)) (String (chr (128 + r mod 64)) EmptyString)
  else if ((55296 <=? r) && (r <=? 57343))%N || (1114111 <? r)%N then
    String (chr 239) (String (chr 191) (String (chr 189) EmptyString))
  else if (r <? 65536)%N then
    String (chr (224 + r / 4096))
      (String (chr (128 + (r / 64) mod 64)) (String (chr (128 + r mod 64)) EmptyString))
  else
    String (chr (240 + r / 262144))
      (String (chr (128 + (r / 4096) mod 64))
         (String (chr (128 + (r / 64) mod 64)) (String (chr (128 + r mod 64)) EmptyString))).

Definition is_high_surrogate (r : N) : bool := (55296 <=? r)%N && (r <? 56320)%N.
Definition is_low_surrogate (r : N) : bool := (56320 <=? r)%N && (r <? 57344)%N.
Definition is_surrogate (r : N) : bool := (55296 <=? r)%N && (r <? 57344)%N.

Definition in_range (lo hi : N) (c : ascii) : bool := (lo <=? byte c)%N && (byte c <=? hi)%N.

(** The number of continuation bytes [utf8.DecodeRune] accepts after the
    leading byte [c0] of a multi-byte sequence, with the range the first
    of them has to lie in; [None] for a byte that starts no sequence. *)
Definition utf8_lead (c0 : ascii) : option (nat * N * N) :=
  let b := byte c0 in
  if (194 <=? b)%N && (b <=? 223)%N then Some (1%nat, 128%N, 191%N)
  else if (b =? 224)%N then Some (2%nat, 160%N, 191%N)
  else if (b =? 237)%N then Some (2%nat, 128%N, 159%N)
  else if (225 <=? b)%N && (b <=? 239)%N then Some (2%nat, 128%N, 191%N)
  else if (b =? 240)%N then Some (3%nat, 144%N, 191%N)
  else if (241 <=? b)%N && (b <=? 243)%N then Some (3%nat, 128%N, 191%N)
  else if (b =? 244)%N then Some (3%nat, 128%N, 143%N)
  else None.

(** Is the head of [s] (after the leading byte [c0]) a well-formed
    multi-byte sequence?  If so, the number of its continuation bytes. *)
Definition utf8_well_formed (c0 : ascii) (s : string) : option nat :=
  match utf8_lead c0 with
  | None => None
  | Some (n, lo, hi) =>
      let ok :=
        match n, s with
        | 1%nat, String c1 _ => in_range lo hi c1
        | 2%nat, String c1 (String c2 _) => in_range lo hi c1 && in_range 128 191 c2
        | 3%nat, String c1 (String c2 (String c3 _)) =>
            in_range lo hi c1 && in_range 128 191 c2 && in_range 128 191 c3
        | _, _ => false
        end in
      if ok then Some n else None
  end.

Definition replacement : string := EncodeRune RuneError.

(** The body of a string literal, from just after the opening quote:
    the unquoted bytes and the input after the closing quote.  [drop]
    counts the bytes of an escape that are still to be stepped over,
    [keep] the continuation bytes of a well-formed UTF-8 sequence that
    are still to be copied. *)
Fixpoint scan_string (drop keep : nat) (s : string) : option (string * string) :=
  match s with
  | EmptyString => None
  | String c rest =>
      let emit (out : string) (d k : nat) :=
        match scan_string d k rest with
        | Some (t, r) => Some (out +:+ t, r)
        | None => None
        end in
      match drop, keep with
      | S d, _ => scan_string d keep rest
      | O, S k => emit (String c EmptyString) 0 k
      | O, O =>
          if Ascii.eqb c quote then Some (EmptyString, rest)
          else if Ascii.eqb c "\" then
            match rest with
            | EmptyString => None
            | String e rest' =>
                let simple (b : N) := emit (String (chr b) EmptyString) 1 0 in
                if Ascii.eqb e quote then simple 34%N
                else if Ascii.eqb e "\" then simple 92%N
                else if Ascii.eqb e "/" then simple 47%N
                else if Ascii.eqb e "b" then simple 8%N
                else if Ascii.eqb e "f" then simple 12%N
                else if Ascii.eqb e "n" then simple 10%N
                else if Ascii.eqb e "r" then simple 13%N
                else if Ascii.eqb e "t" then simple 9%N
                else if Ascii.eqb e "u" then
                  match getu4 s with
                  | None => None
                  | Some rr =>
                      let after := match rest' with
                                   | String _ (String _ (String _ (String _ t))) => t
                                   | _ => EmptyString
                                   end in
                      if is_surrogate rr then
                        match getu4 after with
                        | Some rr1 =>
                            if is_high_surrogate rr && is_low_surrogate rr1
                            then emit (EncodeRune ((rr - 55296) * 1024 + (rr1 - 56320) + 65536)%N) 11 0
                            else emit replacement 5 0
                        | None => emit replacement 5 0
                        end
                      else emit (EncodeRune rr) 5 0
                  end
                else None
            end
          else if (byte c <? 32)%N then None
          else if (byte c <? 128)%N then emit (String c EmptyString) 0 0
          else
            match utf8_well_formed c rest with
            | Some n => emit (String c EmptyString) 0 n
            | None => emit replacement 0 0
            end
      end
  end.

(** *** Values *)

Fixpoint strip_prefix (prefix s : string) {struct prefix} : option string :=
  match prefix with
  | EmptyString => Some s
  | String p prefix' =>
      match s with
      | String c s' => if Ascii.eqb c p then strip_prefix prefix' s' else None
      | EmptyString => None
      end
  end.

(** The scanner's [maxNestingDepth]. *)
Definition maxNestingDepth : N := 10000.

(** Recursive descent over the grammar the scanner accepts.  [depth] is
    the number of arrays and objects currently open.  Every call passes a
    smaller [fuel] on; a value and the separator after it take at least
    two bytes, so that twice the length of the text (and two) is enough
    and running out of fuel does not happen under [parse]. *)
Fixpoint parse_value (fuel : nat) (depth : N) (s : string) : option (value * string) :=
  match fuel with
  | O => None
  | S fuel' =>
      match skip_space s with
      | EmptyString => None
      | String c rest =>
          if Ascii.eqb c "{" then
            if (maxNestingDepth <=? depth)%N then None
            else
              match skip_space rest with
              | String "}" r => Some (Object [], r)
              | _ => parse_members fuel' (depth + 1)%N rest []
              end
          else if Ascii.eqb c "[" then
            if (maxNestingDepth <=? depth)%N then None
            else
              match skip_space rest with
              | String "]" r => Some (Array [], r)
              | _ => parse_elements fuel' (depth + 1)%N rest []
              end
          else if Ascii.eqb c quote then
            match scan_string 0 0 rest with
            | Some (t, r) => Some (Str t, r)
            | None => None
            end
          else if Ascii.eqb c "t" then
            match strip_prefix "rue" rest with Some r => Some (Bool true, r) | None => None end
          else if Ascii.eqb c "f" then
            match strip_prefix "alse" rest with Some r => Some (Bool false, r) | None => None end
          else if Ascii.eqb c "n" then
            match strip_prefix "ull" rest with Some r => Some (Null, r) | None => None end
          else
            match scan_number (String c rest) with
            | Some (lit, r) => Some (Number lit, r)
            | None => None
            end
      end
  end
with parse_elements (fuel : nat) (depth : N) (s : string) (acc : list value)
  : option (value * string) :=
  match fuel with
  | O => None
  | S fuel' =>
      match parse_value fuel' depth s with
      | None => None
      | Some (v, r) =>
          match skip_space r with
          | String "," r' => parse_elements fuel' depth r' (acc ++ [v])
          | String "]" r' => Some (Array (acc ++ [v]), r')
          | _ => None
          end
      end
  end
with parse_members (fuel : nat) (depth : N) (s : string) (acc : list (string * value))
  : option (value * string) :=
  match fuel with
  | O => None
  | S fuel' =>
      match skip_space s with
      | String q r =>
          if Ascii.eqb q quote then
            match scan_string 0 0 r with
            | None => None
            | Some (key, r1) =>
                match skip_space r1 with
                | String ":" r2 =>
                    match parse_value fuel' depth r2 with
                    | None => None
                    | Some (v, r3) =>
                        match skip_space r3 with
                        | String "," r4 => parse_members fuel' depth r4 (acc ++ [(key, v)])
                        | String "}" r4 => Some (Object (acc ++ [(key, v)]), r4)
                        | _ => None
                        end
                    end
                | _ => None
                end
            end
          else None
      | EmptyString => None
      end
  end.

(** [checkValid] and the scan of the text: exactly one value, white
    space around it, nothing after it. *)
Definition parse (data : string) : option value :=
  match parse_value (2 * String.length data + 2) 0 data with
  | Some (v, rest) =>
      match skip_space rest with
      | EmptyString => Some v
      | _ => None
      end
  | None => None
  end.

(** *** Struct fields

    A member's key selects the field whose name it equals, or else the
    first field whose name it equals under case folding ([foldName]).
    The names here are ASCII, and besides the letters' two cases only the
    runes U+017F (long s) and U+212A (Kelvin sign) fold into ASCII. *)

Definition upper (c : ascii) : ascii :=
  if (97 <=? byte c)%N && (byte c <=? 122)%N then chr (byte c - 32) else c.

Fixpoint equal_fold (key name : string) : bool :=
  match key, name with
  | EmptyString, EmptyString => true
  | String k key', String n name' =>
      if (byte k <? 128)%N then Ascii.eqb (upper k) (upper n) && equal_fold key' name'
      else
        match key' with
        | String k1 key1 =>
            if (byte k =? 197)%N && (byte k1 =? 191)%N
            then Ascii.eqb "S" (upper n) && equal_fold key1 name'
            else
              match key1 with
              | String k2 key2 =>
                  if (byte k =? 226)%N && (byte k1 =? 132)%N && (byte k2 =? 170)%N
                  then Ascii.eqb "K" (upper n) && equal_fold key2 name'
                  else false
              | EmptyString => false
              end
        | EmptyString => false
        end
  | _, _ => false
  end.

(** The field table of a struct with target type [T]: JSON name and
    decoder of a member's value into the field. *)
Definition field (T : Type) : Type := string * (value -> T -> T * option error).

Definition find_field {T} (fields : list (field T)) (key : string) : option (field T) :=
  match List.find (fun f => String.eqb (fst f) key) fields with
  | Some f => Some f
  | None => List.find (fun f => equal_fold key (fst f)) fields
  end.

(** The decoder keeps the first error it saved. *)
Definition saveError (saved new : option error) : option error :=
  match saved with
  | Some e => Some e
  | None => new
  end.

(** The name the decoder reports for the kind of a JSON value. *)
Definition kind (v : value) : string :=
  match v with
  | Null => "null"
  | Bool _ => "bool"
  | Number _ => "number"
  | Str _ => "string"
  | Array _ => "array"
  | Object _ => "object"
  end.

(** A value into a Go [string]: a JSON string is stored, [null] leaves
    the target as it is, anything else is a type error. *)
Definition decode_string (v : value) (old : string) : string * option error :=
  match v with
  | Str s => (s, None)
  | Null => (old, None)
  | _ => (old, Some (UnmarshalTypeError (kind v) "string"))
  end.

(** A value into a struct: the members of an object go to their fields in
    the order of the text (a repeated key is decoded again over the same
    field), an unknown key is skipped; [null] leaves the struct as it is. *)
Definition decode_struct {T} (type_name : string) (fields : list (field T))
    (v : value) (old : T) : T * option error :=
  match v with
  | Object members =>
      fold_left
        (fun (st : T * option error) (m : string * value) =>
           match find_field fields (fst m) with
           | Some f => let '(x, e) := snd f (snd m) (fst st) in (x, saveError (snd st) e)
           | None => st
           end)
        members (old, None)
  | Null => (old, None)
  | _ => (old, Some (UnmarshalTypeError (kind v) type_name))
  end.

(** A value into a slice: the elements of an array are decoded in order,
    over the slice's existing elements as far as they reach and over zero
    values beyond; [null] empties the slice.  (The library's nil slice
    and its empty slice are both the empty list here.) *)
Fixpoint decode_elems {T} (dec : value -> T -> T * option error) (zero : T)
    (vs : list value) (old : list T) : list T * option error :=
  match vs with
  | [] => ([], None)
  | v :: vs' =>
      let '(x, e) := dec v (match old with o :: _ => o | [] => zero end) in
      let '(xs, es) := decode_elems dec zero vs' (List.tl old) in
      (x :: xs, saveError e es)
  end.

Definition decode_slice {T} (type_name : string) (dec : value -> T -> T * option error)
    (zero : T) (v : value) (old : list T) : list T * option error :=
  match v with
  | Array vs => decode_elems dec zero vs old
  | Null => ([], None)
  | _ => (old, Some (UnmarshalTypeError (kind v) type_name))
  end.

End json.

(** ** Data of the package

    Field names are the source's; where Go lets a field and a function or
    two fields of different structs share a name ([Office], [Stations],
    [Status], [Response], [Body], [ID]), the field takes a trailing
    underscore or its struct's name in front. *)

(** A Go pointer [*T]: [None] is [nil].  No code of the package writes
    through a pointer after it has been shared, so a pointer is modelled by
    the value it points to. *)
Definition ptr (A : Type) : Type := option A.

(** Go's [error] values.  A value made inside a collaborator is [Foreign]
    (it carries its text), one made by [json.Unmarshal] is [Json], and
    [ErrorsNew] is the value [errors.New(text)] makes, which is also what
    [fmt.Errorf] makes when its format has no [%w]. *)
Inductive error :=
| Foreign (text : string)
| Json (e : json.error)
| ErrorsNew (text : string).

(** The configuration the package reads ([config], declared outside
    [noaa.go]): base URL, the two header values and the unit system. *)
Record Config := {
  BaseURL : string;
  UserAgent : string;
  Accept : string;
  Units : string
}.

(** [PointsResponse] holds the JSON values from [/points/<lat,lon>]. *)
Record PointsResponse := {
  ID : string;
  CWA : string;
  Office_ : string;
  GridX : Z;
  GridY : Z;
  GridID : string;
  County : string;
  FireWeatherZone : string;
  EndpointForecast : string;
  EndpointForecastHourly : string;
  EndpointObservationStations : string;
  EndpointForecastGridData : string;
  Timezone : string;
  RadarStation : string
}.

(** [StationsResponse]: no field besides the decoded list. *)
Record StationsResponse := { Stations_ : list string }.

(** [ForecastResponse], [GridpointForecastResponse] and
    [HourlyForecastResponse]: the fields decoded from the wire (of type
    [F]) and the field [Point *PointsResponse]. *)
Record WithPoint (F : Type) := {
  wire : F;
  Point : ptr PointsResponse
}.
Arguments wire {F} _.
Arguments Point {F} _.

(** [forecast.Point = point]. *)
Definition set_Point {F} (r : WithPoint F) (point : ptr PointsResponse) : WithPoint F :=
  {| wire := wire r; Point := point |}.

Record Alert := {
  Alert_ID : string;
  Sent : string;
  Effective : string;
  Onset : string;
  Expires : string;
  Ends : string;
  Status_ : string;
  Severity : string;
  Certainty : string;
  Urgency : string;
  Event : string;
  Sender : string;
  SenderName : string;
  Headline : string;
  Description : string;
  Instruction : string;
  Response_ : string
}.

(** [Alert{}]. *)
Definition Alert_zero : Alert :=
  Build_Alert "" "" "" "" "" "" "" "" "" "" "" "" "" "" "" "" "".

(** ** net/http *)

(** A response body is a stream: the bytes it delivers, and the error that
    ends it if it does not end in EOF. *)
Record Body_ := {
  data : string;
  read_error : option error
}.

Record Response := {
  StatusCode : Z;
  Status : string;
  Body : Body_
}.

(** A request as [http.NewRequest(method, url, nil)] and the calls of
    [Header.Add] build it.  [URL] is the string [http.NewRequest] was
    given; the address the transport connects to is what [net/url] parses
    from that string (which spells the scheme in lower case), and is not
    part of the model. *)
Record Request := {
  Method : string;
  URL : string;
  Header : list (string * string)
}.

(** [ioutil.ReadAll(res.Body)]. *)
Definition ReadAll (b : Body_) : string * option error := (data b, read_error b).

(** ** The collaborators

    What the package calls and [noaa.go] does not define. [http_Do] is
    [http.DefaultClient.Do]: its answer may depend on the requests made
    before.  [http_NewRequest] is the failure of [http.NewRequest] (the URL
    does not parse), if any.  The [Decode_*] functions are
    [json.NewDecoder(body).Decode(&x)] at each target type: the error, and
    what the target holds afterwards.  A target that is a nil pointer stays
    nil when the body is the JSON text [null].  The wire fields of the
    forecast shapes, [OfficeResponse] and [Observation] hold floating-point
    numbers and times; they are left abstract. *)
Class Collaborators := {
  http_NewRequest : string -> option error;
  http_Do : list Request -> Request -> Response + error;
  ForecastFields : Type;
  GridpointForecastFields : Type;
  HourlyForecastFields : Type;
  OfficeResponse : Type;
  Observation : Type;
  Observation_zero : Observation;
  Decode_PointsResponse : Body_ -> ptr PointsResponse * option error;
  Decode_OfficeResponse : Body_ -> ptr OfficeResponse * option error;
  Decode_StationsResponse : Body_ -> ptr StationsResponse * option error;
  Decode_ForecastResponse : Body_ -> ptr (WithPoint ForecastFields) * option error;
  Decode_GridpointForecastResponse :
    Body_ -> ptr (WithPoint GridpointForecastFields) * option error;
  Decode_HourlyForecastResponse :
    Body_ -> ptr (WithPoint HourlyForecastFields) * option error;
  Decode_Observation : Body_ -> Observation * option error;
  json_Error : json.error -> string
}.

Definition ForecastResponse `{Collaborators} : Type := WithPoint ForecastFields.
Definition GridpointForecastResponse `{Collaborators} : Type := WithPoint GridpointForecastFields.
Definition HourlyForecastResponse `{Collaborators} : Type := WithPoint HourlyForecastFields.

(** [err.Error()]. *)
Definition Error `{Collaborators} (e : error) : string :=
  match e with
  | Foreign text => text
  | Json j => json_Error j
  | ErrorsNew text => text
  end.

(** ** State and control

    The package-level variables [config] and [pointsCache], the requests
    handed to [http.DefaultClient.Do] so far (oldest first) and the operands
    of the calls of [fmt.Println] so far.  [pointsCache] is a Go map from
    string to [*PointsResponse]: a key may be bound to nil. *)
Record State := {
  config : Config;
  pointsCache : gmap string (ptr PointsResponse);
  requests : list Request;
  stdout : list (string * error)
}.

(** [m[k]] on a Go map of pointers: nil for a key that is not bound. *)
Definition map_index {A} (m : gmap string (ptr A)) (k : string) : ptr A :=
  match m !! k with
  | Some p => p
  | None => None
  end.

(** A Go function either returns its results or panics. *)
Inductive outcome (A : Type) :=
| Return (a : A)
| Panic.
Arguments Return {A} _.
Arguments Panic {A}.

Definition M (A : Type) : Type := State -> outcome A * State.

Definition ret {A} (a : A) : M A := fun s => (Return a, s).

Definition bind {A B} (m : M A) (k : A -> M B) : M B :=
  fun s =>
    match m s with
    | (Return a, s') => k a s'
    | (Panic, s') => (Panic, s')
    end.

Notation "'let*' p ':=' m 'in' k" := (bind m (fun p => k))
  (at level 10, p pattern, m at level 100, k at level 200).

Definition get {A} (f : State -> A) : M A := fun s => (Return (f s), s).

(** Dereferencing a pointer: a nil pointer panics. *)
Definition deref {A} (p : ptr A) : M A :=
  fun s =>
    match p with
    | Some a => (Return a, s)
    | None => (Panic, s)
    end.

(** The state once one more request has been handed to the transport. *)
Definition log_request (s : State) (req : Request) : State :=
  {| config := config s; pointsCache := pointsCache s;
     requests := requests s ++ [req]; stdout := stdout s |}.

(** [http.DefaultClient.Do(req)]. *)
Definition Do `{Collaborators} (req : Request) : M (Response + error) :=
  fun s => (Return (http_Do (requests s) req), log_request s req).

(** The state once [endpoint] is bound to [points] in the cache. *)
Definition store_point (s : State) (endpoint : string) (points : ptr PointsResponse) : State :=
  {| config := config s; pointsCache := <[endpoint := points]> (pointsCache s);
     requests := requests s; stdout := stdout s |}.

(** [pointsCache[endpoint] = points]. *)
Definition cache_store (endpoint : string) (points : ptr PointsResponse) : M unit :=
  fun s => (Return tt, store_point s endpoint points).

(** [fmt.Println(text, err)]. *)
Definition Println (text : string) (err : error) : M unit :=
  fun s =>
    (Return tt,
     {| config := config s; pointsCache := pointsCache s;
        requests := requests s; stdout := stdout s ++ [(text, err)] |}).

(** ** The operations of [noaa.go] *)

Section Operations.

Context `{Collaborators}.

(** [apiCall]: call the weather.gov API with the custom header values. *)
Definition apiCall (endpoint : string) : M (ptr Response * option error) :=
  let endpoint := strings.Replace endpoint "http://" "https://" in
  match http_NewRequest endpoint with
  | Some err => ret (None, Some err)
  | None =>
      let* cfg := get config in
      let req := {| Method := "GET"; URL := endpoint;
                    Header := [("Accept", Accept cfg); ("User-Agent", UserAgent cfg)] |} in
      let* answer := Do req in
      match answer with
      | inr err => ret (None, Some err)
      | inl res =>
          if negb (StatusCode res =? 200)%Z
          then ret (None, Some (ErrorsNew (Sprintf_d_s (StatusCode res) (Status res))))
          else ret (Some res, None)
      end
  end.

(** [Points] returns a set of useful endpoints for a given <lat,lon> or
    returns a cached object if appropriate. *)
Definition Points (lat lon : string) : M (ptr PointsResponse * option error) :=
  let* cfg := get config in
  let endpoint := BaseURL cfg +:+ "/points/" +:+ lat +:+ "," +:+ lon in
  let* cache := get pointsCache in
  match map_index cache endpoint with
  | Some points => ret (Some points, None)
  | None =>
      let* (res, err) := apiCall endpoint in
      match err with
      | Some err => ret (None, Some err)
      | None =>
          let* res := deref res in
          let '(points, err) := Decode_PointsResponse (Body res) in
          match err with
          | Some err => ret (None, Some err)
          | None =>
              let* _ := cache_store endpoint points in
              ret (points, None)
          end
      end
  end.

(** [Office] returns details for a specific office identified by its ID. *)
Definition Office (id : string) : M (ptr OfficeResponse * option error) :=
  let* cfg := get config in
  let endpoint := BaseURL cfg +:+ "/offices/" +:+ id in
  let* (res, err) := apiCall endpoint in
  match err with
  | Some err => ret (None, Some err)
  | None =>
      let* res := deref res in
      let '(office, err) := Decode_OfficeResponse (Body res) in
      match err with
      | Some err => ret (None, Some err)
      | None => ret (office, None)
      end
  end.

(** [Stations] returns an array of observation station IDs (urls). *)
Definition Stations (lat lon : string) : M (ptr StationsResponse * option error) :=
  let* (point, err) := Points lat lon in
  match err with
  | Some err => ret (None, Some err)
  | None =>
      let* p := deref point in
      let* (res, err) := apiCall (EndpointObservationStations p) in
      match err with
      | Some err => ret (None, Some err)
      | None =>
          let* res := deref res in
          let '(stations, err) := Decode_StationsResponse (Body res) in
          match err with
          | Some err => ret (None, Some err)
          | None => ret (stations, None)
          end
      end
  end.

(** The query of the three forecast operations:
    [if config.Units != "" { query = "?units=" + config.Units }]. *)
Definition units_query (cfg : Config) : string :=
  if negb (String.eqb (Units cfg) "") then "?units=" +:+ Units cfg else "".

(** [Forecast] returns an array of forecast observations. *)
Definition Forecast (lat lon : string) : M (ptr ForecastResponse * option error) :=
  let* (point, err) := Points lat lon in
  match err with
  | Some err => ret (None, Some err)
  | None =>
      let* cfg := get config in
      let query := units_query cfg in
      let* p := deref point in
      let* (res, err) := apiCall (EndpointForecast p +:+ query) in
      match err with
      | Some err => ret (None, Some err)
      | None =>
          let* res := deref res in
          let '(forecast, err) := Decode_ForecastResponse (Body res) in
          match err with
          | Some err => ret (None, Some err)
          | None =>
              let* f := deref forecast in
              ret (Some (set_Point f point), None)
          end
      end
  end.

(** [GridpointForecast] returns an array of raw forecast data. *)
Definition GridpointForecast (lat long : string)
  : M (ptr GridpointForecastResponse * option error) :=
  let* (point, err) := Points lat long in
  match err with
  | Some err => ret (None, Some err)
  | None =>
      let* cfg := get config in
      let query := units_query cfg in
      let* p := deref point in
      let* (res, err) := apiCall (EndpointForecastGridData p +:+ query) in
      match err with
      | Some err => ret (None, Some err)
      | None =>
          let* res := deref res in
          let '(forecast, err) := Decode_GridpointForecastResponse (Body res) in
          match err with
          | Some err => ret (None, Some err)
          | None =>
              let* f := deref forecast in
              ret (Some (set_Point f point), None)
          end
      end
  end.

(** [HourlyForecast] returns an array of raw hourly forecast data. *)
Definition HourlyForecast (lat long : string)
  : M (ptr HourlyForecastResponse * option error) :=
  let* (point, err) := Points lat long in
  match err with
  | Some err => ret (None, Some err)
  | None =>
      let* cfg := get config in
      let query := units_query cfg in
      let* p := deref point in
      let* (res, err) := apiCall (EndpointForecastHourly p +:+ query) in
      match err with
      | Some err => ret (None, Some err)
      | None =>
          let* res := deref res in
          let '(forecast, err) := Decode_HourlyForecastResponse (Body res) in
          match err with
          | Some err => ret (None, Some err)
          | None =>
              let* f := deref forecast in
              ret (Some (set_Point f point), None)
          end
      end
  end.

(** [LatestStationObservation]: [/stations/{stationId}/observations/latest]. *)
Definition LatestStationObservation (stationID : string)
  : M (Observation * option error) :=
  let endpoint := stationID +:+ "/observations/latest" in
  let* (res, err) := apiCall endpoint in
  match err with
  | Some err =>
      ret (Observation_zero,
           Some (ErrorsNew ("failed to get latest observations: " +:+ Error err)))
  | None =>
      let* res := deref res in
      let '(observation, err) := Decode_Observation (Body res) in
      match err with
      | Some err => ret (Observation_zero, Some err)
      | None => ret (observation, None)
      end
  end.

(** The type [Response] local to [Alerts]: [Data []Alert `json:"@graph"`]. *)
Record AlertsResponse := { Data : list Alert }.

Definition Alert_fields : list (json.field Alert) :=
  let str (name : string) (set : Alert -> string -> Alert) (get : Alert -> string)
    : json.field Alert :=
    (name, fun v a => let '(x, e) := json.decode_string v (get a) in (set a x, e)) in
  [ str "@id" (fun '(Build_Alert _ b c d e f g h i j k l m n o p q) x =>
                 Build_Alert x b c d e f g h i j k l m n o p q) Alert_ID;
    str "sent" (fun '(Build_Alert a _ c d e f g h i j k l m n o p q) x =>
                 Build_Alert a x c d e f g h i j k l m n o p q) Sent;
    str "effective" (fun '(Build_Alert a b _ d e f g h i j k l m n o p q) x =>
                 Build_Alert a b x d e f g h i j k l m n o p q) Effective;
    str "onset" (fun '(Build_Alert a b c _ e f g h i j k l m n o p q) x =>
                 Build_Alert a b c x e f g h i j k l m n o p q) Onset;
    str "expires" (fun '(Build_Alert a b c d _ f g h i j k l m n o p q) x =>
                 Build_Alert a b c d x f g h i j k l m n o p q) Expires;
    str "ends" (fun '(Build_Alert a b c d e _ g h i j k l m n o p q) x =>
                 Build_Alert a b c d e x g h i j k l m n o p q) Ends;
    str "status" (fun '(Build_Alert a b c d e f _ h i j k l m n o p q) x =>
                 Build_Alert a b c d e f x h i j k l m n o p q) Status_;
    str "severity" (fun '(Build_Alert a b c d e f g _ i j k l m n o p q) x =>
                 Build_Alert a b c d e f g x i j k l m n o p q) Severity;
    str "certainty" (fun '(Build_Alert a b c d e f g h _ j k l m n o p q) x =>
                 Build_Alert a b c d e f g h x j k l m n o p q) Certainty;
    str "urgency" (fun '(Build_Alert a b c d e f g h i _ k l m n o p q) x =>
                 Build_Alert a b c d e f g h i x k l m n o p q) Urgency;
    str "event" (fun '(Build_Alert a b c d e f g h i j _ l m n o p q) x =>
                 Build_Alert a b c d e f g h i j x l m n o p q) Event;
    str "sender" (fun '(Build_Alert a b c d e f g h i j k _ m n o p q) x =>
                 Build_Alert a b c d e f g h i j k x m n o p q) Sender;
    str "senderName" (fun '(Build_Alert a b c d e f g h i j k l _ n o p q) x =>
                 Build_Alert a b c d e f g h i j k l x n o p q) SenderName;
    str "headline" (fun '(Build_Alert a b c d e f g h i j k l m _ o p q) x =>
                 Build_Alert a b c d e f g h i j k l m x o p q) Headline;
    str "description" (fun '(Build_Alert a b c d e f g h i j k l m n _ p q) x =>
                 Build_Alert a b c d e f g h i j k l m n x p q) Description;
    str "instruction" (fun '(Build_Alert a b c d e f g h i j k l m n o _ q) x =>
                 Build_Alert a b c d e f g h i j k l m n o x q) Instruction;
    str "response" (fun '(Build_Alert a b c d e f g h i j k l m n o p _) x =>
                 Build_Alert a b c d e f g h i j k l m n o p x) Response_ ].

Definition AlertsResponse_fields : list (json.field AlertsResponse) :=
  [ ("@graph",
     fun v r =>
       let '(x, e) :=
         json.decode_slice "[]noaa.Alert"
           (json.decode_struct "noaa.Alert" Alert_fields) Alert_zero v (Data r) in
       ({| Data := x |}, e)) ].

(** [json.Unmarshal(data, &r)] for [r] of the local type [Response]. *)
Definition Unmarshal (bytes : string) (r : AlertsResponse) : AlertsResponse * option error :=
  match json.parse bytes with
  | None => (r, Some (Json json.SyntaxError))
  | Some v =>
      let '(r', e) := json.decode_struct "noaa.Response" AlertsResponse_fields v r in
      (r', match e with Some j => Some (Json j) | None => None end)
  end.

(** [Alerts]: the active alerts at a point.  (The empty slice [[]Alert{}]
    of the error paths and the nil slice that [r.Data] is when the body
    names no alerts are both the empty list.) *)
Definition Alerts (lat long : string) : M (list Alert * option error) :=
  let* cfg := get config in
  let u := BaseURL cfg +:+ "/alerts/active?point=" +:+ lat +:+ "," +:+ long in
  let* (res, err) := apiCall u in
  match err with
  | Some err => ret ([], Some err)
  | None =>
      let* res := deref res in
      let r := {| Data := [] |} in
      let '(bytes, err) := ReadAll (Body res) in
      match err with
      | Some err =>
          let* _ := Println "error reading response: " err in
          ret ([], Some err)
      | None =>
          let '(r, err) := Unmarshal bytes r in
          match err with
          | Some err =>
              let* _ := Println "error unmarshaling response: " err in
              ret ([], Some err)
          | None => ret (Data r, None)
          end
      end
  end.

End Operations.

(** ** Calls of the public operations

    One constructor per exported function of [noaa.go], so that a property
    can be stated of every operation and of every sequence of calls. *)

Inductive Call :=
| CallPoints (lat lon : string)
| CallOffice (id : string)
| CallStations (lat lon : string)
| CallForecast (lat lon : string)
| CallGridpointForecast (lat long : string)
| CallHourlyForecast (lat long : string)
| CallLatestStationObservation (stationID : string)
| CallAlerts (lat long : string).

(** What a caller that only looks at [err] sees of a call. *)
Definition err_of {A} (r : outcome (A * option error) * State) : outcome (option error) * State :=
  match r with
  | (Return (_, err), s) => (Return err, s)
  | (Panic, s) => (Panic, s)
  end.

Definition run `{Collaborators} (c : Call) (s : State) : outcome (option error) * State :=
  match c with
  | CallPoints lat lon => err_of (Points lat lon s)
  | CallOffice id => err_of (Office id s)
  | CallStations lat lon => err_of (Stations lat lon s)
  | CallForecast lat lon => err_of (Forecast lat lon s)
  | CallGridpointForecast lat long => err_of (GridpointForecast lat long s)
  | CallHourlyForecast lat long => err_of (HourlyForecast lat long s)
  | CallLatestStationObservation stationID => err_of (LatestStationObservation stationID s)
  | CallAlerts lat long => err_of (Alerts lat long s)
  end.

(** The state after a sequence of calls (a panic that the caller recovers
    from leaves the state it was raised in). *)
Fixpoint run_all `{Collaborators} (cs : list Call) (s : State) : State :=
  match cs with
  | [] => s
  | c :: cs' => run_all cs' (snd (run c s))
  end.

(** The requests handed to the transport between two states. *)
Definition issued (before after : State) : list Request :=
  drop (length (requests before)) (requests after).

(** The requests a computation hands to the transport when run in [s]. *)
Definition outbound {A} (m : M A) (s : State) : list Request := issued s (snd (m s)).

(** The GET request that carries the two configured headers. *)
Definition request_for (cfg : Config) (url : string) : Request :=
  {| Method := "GET"; URL := url;
     Header := [("Accept", Accept cfg); ("User-Agent", UserAgent cfg)] |}.

(** What goes out for a URL: the request, unless [http.NewRequest] refuses
    the URL. *)
Definition get_of `{Collaborators} (cfg : Config) (url : string) : list Request :=
  match http_NewRequest url with
  | None => [request_for cfg url]
  | Some _ => []
  end.

(** One cache holds at least what another holds: every key of the first is
    a key of the second, and a key bound to a [PointsResponse] in the first
    is bound to the same one in the second. *)
Definition cache_le (m m' : gmap string (ptr PointsResponse)) : Prop :=
  dom m ⊆ dom m' /\
  forall (k : string) (p : PointsResponse), map_index m k = Some p -> map_index m' k = Some p.

(** A computation under which the cache only grows. *)
Definition grows {A} (m : M A) : Prop :=
  forall s : State, cache_le (pointsCache s) (pointsCache (snd (m s))).

(** The endpoint [Points] builds:
    [fmt.Sprintf("%s/points/%s,%s", config.BaseURL, lat, lon)]. *)
Definition points_endpoint (cfg : Config) (lat lon : string) : string :=
  BaseURL cfg +:+ "/points/" +:+ lat +:+ "," +:+ lon.

(** The course shared by the four operations that resolve a point first:
    [Points], then [apiCall] on an endpoint of the point, then the decoder,
    then [finish] on what was decoded. *)
Definition via_point `{Collaborators} {T : Type}
    (endpoint_of : PointsResponse -> Config -> string)
    (decode : Body_ -> ptr T * option error)
    (finish : ptr T -> PointsResponse -> outcome (ptr T))
    (lat lon : string) (s : State) : outcome (ptr T * option error) * State :=
  match Points lat lon s with
  | (Return (_, Some err), s1) => (Return (None, Some err), s1)
  | (Return (None, None), s1) => (Panic, s1)
  | (Return (Some p, None), s1) =>
      match apiCall (endpoint_of p (config s1)) s1 with
      | (Return (_, Some err), s2) => (Return (None, Some err), s2)
      | (Return (None, None), s2) => (Panic, s2)
      | (Return (Some res, None), s2) =>
          match decode (Body res) with
          | (_, Some err) => (Return (None, Some err), s2)
          | (v, None) =>
              match finish v p with
              | Return r => (Return (r, None), s2)
              | Panic => (Panic, s2)
              end
          end
      | (Panic, s2) => (Panic, s2)
      end
  | (Panic, s1) => (Panic, s1)
  end.

(** [forecast.Point = point; return forecast, nil]: a nil [forecast]
    panics. *)
Definition attach_point {F} (forecast : ptr (WithPoint F)) (p : PointsResponse)
  : outcome (ptr (WithPoint F)) :=
  match forecast with
  | Some f => Return (Some (set_Point f (Some p)))
  | None => Panic
  end.

(** [return stations, nil]. *)
Definition as_decoded {T} (v : ptr T) (_ : PointsResponse) : outcome (ptr T) := Return v.

(** The two steps in which [Alerts] decodes a body: [ioutil.ReadAll], then
    [json.Unmarshal] of all the bytes into a zero [Response], whose [Data]
    is the result; the empty slice goes with an error of either step. *)
Definition decode_alerts (b : Body_) : list Alert * option error :=
  match ReadAll b with
  | (_, Some err) => ([], Some err)
  | (bytes, None) =>
      match Unmarshal bytes {| Data := [] |} with
      | (_, Some err) => ([], Some err)
      | (r, None) => (Data r, None)
      end
  end.

(** The URL [Alerts] builds:
    [fmt.Sprintf("%s%s%s,%s", config.BaseURL, "/alerts/active?point=", lat, long)]. *)
Definition alerts_endpoint (cfg : Config) (lat long : string) : string :=
  BaseURL cfg +:+ "/alerts/active?point=" +:+ lat +:+ "," +:+ long.

(** [e] is the error of the step that failed when [endpoint] is fetched in
    state [s] and the body of the response is decoded: the error [apiCall]
    returned, or the error the decoder returned. *)
Definition fetch_or_decode `{Collaborators} {T : Type} (endpoint : string)
    (decode : Body_ -> T * option error) (s : State) (e : error) : Prop :=
  fst (apiCall endpoint s) = Return (None, Some e)
  \/ exists res : Response,
       fst (apiCall endpoint s) = Return (Some res, None)
       /\ snd (decode (Body res)) = Some e.

(** The same for an operation that resolves the point first: the error of
    the point resolution, or of the fetch and decoding that follow it. *)
Definition point_fetch_or_decode `{Collaborators} {T : Type}
    (endpoint_of : PointsResponse -> Config -> string)
    (decode : Body_ -> T * option error) (lat lon : string) (s : State) (e : error) : Prop :=
  fetch_or_decode (points_endpoint (config s) lat lon) Decode_PointsResponse s e
  \/ exists (p : PointsResponse) (s1 : State),
       Points lat lon s = (Return (Some p, None), s1)
       /\ fetch_or_decode (endpoint_of p (config s1)) decode s1 e.

(** The failed step of each operation. *)
Definition failed_step `{Collaborators} (c : Call) (s : State) (e : error) : Prop :=
  match c with
  | CallPoints lat lon =>
      fetch_or_decode (points_endpoint (config s) lat lon) Decode_PointsResponse s e
  | CallOffice id =>
      fetch_or_decode (BaseURL (config s) +:+ "/offices/" +:+ id) Decode_OfficeResponse s e
  | CallStations lat lon =>
      point_fetch_or_decode (fun p _ => EndpointObservationStations p)
        Decode_StationsResponse lat lon s e
  | CallForecast lat lon =>
      point_fetch_or_decode (fun p cfg => EndpointForecast p +:+ units_query cfg)
        Decode_ForecastResponse lat lon s e
  | CallGridpointForecast lat long =>
      point_fetch_or_decode (fun p cfg => EndpointForecastGridData p +:+ units_query cfg)
        Decode_GridpointForecastResponse lat long s e
  | CallHourlyForecast lat long =>
      point_fetch_or_decode (fun p cfg => EndpointForecastHourly p +:+ units_query cfg)
        Decode_HourlyForecastResponse lat long s e
  | CallLatestStationObservation stationID =>
      fetch_or_decode (stationID +:+ "/observations/latest") Decode_Observation s e
  | CallAlerts lat long =>
      fetch_or_decode (alerts_endpoint (config s) lat long) decode_alerts s e
  end.

(** The step that fails when an operation that resolves a point first is
    run in [s], and the error it fails with: the fetch or the decoding of
    [Points], which are run only when the endpoint of the point misses the
    cache, or the fetch or the decoding that follow once [Points] has
    returned a point. *)
Definition point_step_fails `{Collaborators} {T : Type}
    (endpoint_of : PointsResponse -> Config -> string)
    (decode : Body_ -> T * option error) (lat lon : string) (s : State) (e : error) : Prop :=
  (map_index (pointsCache s) (points_endpoint (config s) lat lon) = None
   /\ fetch_or_decode (points_endpoint (config s) lat lon) Decode_PointsResponse s e)
  \/ exists (p : PointsResponse) (s1 : State),
       Points lat lon s = (Return (Some p, None), s1)
       /\ fetch_or_decode (endpoint_of p (config s1)) decode s1 e.

(** A step of the call [c] is run in [s] and fails with [e]. *)
Definition step_fails `{Collaborators} (c : Call) (s : State) (e : error) : Prop :=
  match c with
  | CallPoints lat lon =>
      map_index (pointsCache s) (points_endpoint (config s) lat lon) = None
      /\ fetch_or_decode (points_endpoint (config s) lat lon) Decode_PointsResponse s e
  | CallOffice id =>
      fetch_or_decode (BaseURL (config s) +:+ "/offices/" +:+ id) Decode_OfficeResponse s e
  | CallStations lat lon =>
      point_step_fails (fun p _ => EndpointObservationStations p)
        Decode_StationsResponse lat lon s e
  | CallForecast lat lon =>
      point_step_fails (fun p cfg => EndpointForecast p +:+ units_query cfg)
        Decode_ForecastResponse lat lon s e
  | CallGridpointForecast lat long =>
      point_step_fails (fun p cfg => EndpointForecastGridData p +:+ units_query cfg)
        Decode_GridpointForecastResponse lat long s e
  | CallHourlyForecast lat long =>
      point_step_fails (fun p cfg => EndpointForecastHourly p +:+ units_query cfg)
        Decode_HourlyForecastResponse lat long s e
  | CallLatestStationObservation stationID =>
      fetch_or_decode (stationID +:+ "/observations/latest") Decode_Observation s e
  | CallAlerts lat long =>
      fetch_or_decode (alerts_endpoint (config s) lat long) decode_alerts s e
  end.

(** ** Test doubles

    A transport and decoders to run the operations on: the transport is
    given, no URL is refused, the typed decoders take the JSON text [null]
    to a nil pointer, any other text starting with an opening brace to a
    fixed value, and fail on everything else. *)

Definition default_config : Config :=
  {| BaseURL := "https://api.weather.gov";
     UserAgent := "github.com/icodealot/noaa";
     Accept := "application/ld+json";
     Units := "" |}.

Definition initial (cfg : Config) : State :=
  {| config := cfg; pointsCache := ∅; requests := []; stdout := [] |}.

Definition sample_point : PointsResponse :=
  {| ID := "https://api.weather.gov/points/39.7456,-97.0892";
     CWA := "TOP";
     Office_ := "https://api.weather.gov/offices/TOP";
     GridX := 32;
     GridY := 81;
     GridID := "TOP";
     County := "https://api.weather.gov/zones/county/KSC201";
     FireWeatherZone := "https://api.weather.gov/zones/fire/KSZ009";
     EndpointForecast := "https://api.weather.gov/gridpoints/TOP/32,81/forecast";
     EndpointForecastHourly := "https://api.weather.gov/gridpoints/TOP/32,81/forecast/hourly";
     EndpointObservationStations := "https://api.weather.gov/gridpoints/TOP/32,81/stations";
     EndpointForecastGridData := "https://api.weather.gov/gridpoints/TOP/32,81";
     Timezone := "America/Chicago";
     RadarStation := "KTWX" |}.

Definition fake_decode {T} (value : string -> T) (b : Body_) : ptr T * option error :=
  match read_error b with
  | Some e => (None, Some e)
  | None =>
      if String.eqb (data b) "null" then (None, None)
      else if strings.HasPrefix (data b) "{" then (Some (value (data b)), None)
      else (None, Some (Foreign "invalid character"))
  end.

Definition fake (transport : list Request -> Request -> Response + error) : Collaborators :=
  {| http_NewRequest := fun _ => None;
     http_Do := transport;
     ForecastFields := string;
     GridpointForecastFields := string;
     HourlyForecastFields := string;
     OfficeResponse := string;
     Observation := string;
     Observation_zero := "";
     Decode_PointsResponse := fake_decode (fun _ => sample_point);
     Decode_OfficeResponse := fake_decode (fun text => text);
     Decode_StationsResponse := fake_decode (fun _ => {| Stations_ := [] |});
     Decode_ForecastResponse := fake_decode (fun text => {| wire := text; Point := None |});
     Decode_GridpointForecastResponse :=
       fake_decode (fun text => {| wire := text; Point := None |});
     Decode_HourlyForecastResponse :=
       fake_decode (fun text => {| wire := text; Point := None |});
     Decode_Observation :=
       fun b => match read_error b with
                | Some e => ("", Some e)
                | None => (data b, None)
                end;
     json_Error := fun _ => "json error" |}.

(** The alert of the body
    [{"@graph":[{"@id":"a1","event":"Flood Warning"}]}]. *)
Definition flood_warning : Alert :=
  {| Alert_ID := "a1"; Sent := ""; Effective := ""; Onset := ""; Expires := ""; Ends := "";
     Status_ := ""; Severity := ""; Certainty := ""; Urgency := ""; Event := "Flood Warning";
     Sender := ""; SenderName := ""; Headline := ""; Description := ""; Instruction := "";
     Response_ := "" |}.

(** A JSON text written with apostrophes where its double quotes are. *)
Fixpoint dq (text : string) : string :=
  match text with
  | EmptyString => EmptyString
  | String c text' => String (if Ascii.eqb c "'" then json.quote else c) (dq text')
  end.

(** The body [{"@graph":[{"@id":"a1","event":"Flood Warning"}]}]. *)
Definition graph_body : string := dq "{'@graph':[{'@id':'a1','event':'Flood Warning'}]}".

(** A body cut short: [{"@graph":]. *)
Definition cut_body : string := dq "{'@graph':".

Definition ok (text : string) : Response :=
  {| StatusCode := 200; Status := "200 OK";
     Body := {| data := text; read_error := None |} |}.

(** Every request is answered with status 200 and the same body. *)
Definition always (text : string) : list Request -> Request -> Response + error :=
  fun _ _ => inl (ok text).

(** Every request is answered with the given status and an empty body. *)
Definition status (code : Z) (text : string) : list Request -> Request -> Response + error :=
  fun _ _ => inl {| StatusCode := code; Status := text;
                    Body := {| data := ""; read_error := None |} |}.

(** No request gets an answer. *)
Definition unreachable : list Request -> Request -> Response + error :=
  fun _ _ => inr (Foreign "dial tcp: connect: network is unreachable").

(** The first request is answered with the first body, later ones with the
    second. *)
Definition first_then (first later : string) : list Request -> Request -> Response + error :=
  fun history _ =>
    match history with
    | [] => inl (ok first)
    | _ => inl (ok later)
    end.

(** ** States before and after

    Relations between the state a computation starts in and the state it
    ends in, to say what the operations leave alone. *)

(** Every run of [m] relates the state before to the state after. *)
Definition respects (R : State -> State -> Prop) {A} (m : M A) : Prop :=
  forall s : State, R s (snd (m s)).

(** A request as [apiCall] builds them: a GET, with the header [Accept]
    and then the header [User-Agent] added, each with the configured
    value, and no other header. *)
Definition configured_get (cfg : Config) (req : Request) : Prop :=
  Method req = "GET"
  /\ Header req = [("Accept", Accept cfg); ("User-Agent", UserAgent cfg)].

(** Between the two states the configuration is the same and the log of
    requests has only grown, by requests that satisfy [Q]. *)
Definition sends_only (Q : Config -> Request -> Prop) (s s' : State) : Prop :=
  config s' = config s
  /\ exists l : list Request,
       requests s' = (requests s ++ l)%list /\ Forall (Q (config s)) l.

(** The most requests a call hands to the transport: one for the point and
    one for the endpoint of the point, or the one of the operation. *)
Definition requests_of_call (c : Call) : nat :=
  match c with
  | CallStations _ _ | CallForecast _ _ | CallGridpointForecast _ _
  | CallHourlyForecast _ _ => 2
  | CallPoints _ _ | CallOffice _ | CallLatestStationObservation _ | CallAlerts _ _ => 1
  end.

Definition is_Alerts (c : Call) : bool :=
  match c with
  | CallAlerts _ _ => true
  | _ => false
  end.

(** The state with another cache. *)
Definition with_cache (s : State) (m : gmap string (ptr PointsResponse)) : State :=
  {| config := config s; pointsCache := m; requests := requests s; stdout := stdout s |}.

(** What [Alerts] prints for a body: the text and the error of the step of
    the decoding that failed, nothing if none did. *)
Definition alerts_diagnostic (b : Body_) : list (string * error) :=
  match ReadAll b with
  | (_, Some err) => [("error reading response: ", err)]
  | (bytes, None) =>
      match snd (Unmarshal bytes {| Data := [] |}) with
      | Some err => [("error unmarshaling response: ", err)]
      | None => []
      end
  end.

(** A test double whose [http.NewRequest] refuses a URL that holds a line
    feed, as [net/url] refuses control characters. *)
Definition has_line_feed (url : string) : bool := strings.Contains url (String "010" "").

Definition strict (transport : list Request -> Request -> Response + error) : Collaborators :=
  {| http_NewRequest :=
       fun url => if has_line_feed url
                  then Some (Foreign "net/url: invalid control character in URL")
                  else None;
     http_Do := transport;
     ForecastFields := string;
     GridpointForecastFields := string;
     HourlyForecastFields := string;
     OfficeResponse := string;
     Observation := string;
     Observation_zero := "";
     Decode_PointsResponse := fake_decode (fun _ => sample_point);
     Decode_OfficeResponse := fake_decode (fun text => text);
     Decode_StationsResponse := fake_decode (fun _ => {| Stations_ := [] |});
     Decode_ForecastResponse := fake_decode (fun text => {| wire := text; Point := None |});
     Decode_GridpointForecastResponse :=
       fake_decode (fun text => {| wire := text; Point := None |});
     Decode_HourlyForecastResponse :=
       fake_decode (fun text => {| wire := text; Point := None |});
     Decode_Observation :=
       fun b => match read_error b with
                | Some e => ("", Some e)
                | None => (data b, None)
                end;
     json_Error := fun _ => "json error" |}.

(** A body whose reading fails after some bytes. *)
Definition broken (text : string) : list Request -> Request -> Response + error :=
  fun _ _ => inl {| StatusCode := 200; Status := "200 OK";
                    Body := {| data := text;
                               read_error := Some (Foreign "unexpected EOF") |} |}.

(** * Properties *)

(** ** [strings.Replace] *)

Lemma append_cons (x : ascii) (a b : string) : String x a +:+ b = String x (a +:+ b).
Proof. reflexivity. Qed.

Lemma append_assoc (a b c : string) : (a +:+ b) +:+ c = a +:+ (b +:+ c).
Proof.
  induction a as [|x a IH]; [reflexivity|].
  rewrite !append_cons, IH. reflexivity.
Qed.

Lemma append_nil_r (a : string) : a +:+ "" = a.
Proof.
  induction a as [|x a IH]; [reflexivity|].
  rewrite append_cons, IH. reflexivity.
Qed.

Section ReplaceFacts.

Variables old new : string.

Lemma HasPrefix_length (s p : string) :
  strings.HasPrefix s p = true -> String.length p <= String.length s.
Proof.
  revert s; induction p as [|c p IH]; intros [|d s]; simpl; try lia; try discriminate.
  intros Hp. apply andb_prop in Hp as [_ Hp]. apply IH in Hp. lia.
Qed.

Lemma HasPrefix_app_long (a b p : string) :
  String.length p <= String.length a ->
  strings.HasPrefix (a +:+ b) p = strings.HasPrefix a p.
Proof.
  revert a; induction p as [|c p IH]; intros [|d a] Hlen; simpl in *;
    try lia; try reflexivity.
  rewrite IH by lia. reflexivity.
Qed.

Lemma replace_from_app (tail : string) :
  no_straddle old tail ->
  forall (a : string) (k : nat), k <= String.length a ->
    strings.replace_from old new k (a +:+ tail)
    = strings.replace_from old new k a +:+ strings.replace_from old new 0 tail.
Proof.
  intros Htail. induction a as [|c a IH]; intros k Hk; simpl in Hk.
  - assert (k = 0) by lia. subst k. reflexivity.
  - destruct k as [|k]; simpl.
    + specialize (Htail (String c a) ltac:(discriminate)).
      change (String c a +:+ tail) with (String c (a +:+ tail)) in Htail.
      rewrite Htail.
      destruct (strings.HasPrefix (String c a) old) eqn:Hp.
      * apply HasPrefix_length in Hp. simpl in Hp.
        rewrite IH by lia. rewrite append_assoc. reflexivity.
      * rewrite IH by lia. reflexivity.
    + apply IH. lia.
Qed.

Lemma Replace_app (a tail : string) :
  no_straddle old tail ->
  strings.Replace (a +:+ tail) old new
  = strings.Replace a old new +:+ strings.Replace tail old new.
Proof. intros Htail. apply replace_from_app; [assumption | lia]. Qed.

Lemma Replace_absent (s : string) :
  strings.Contains s old = false -> strings.Replace s old new = s.
Proof.
  unfold strings.Replace. induction s as [|c s IH]; simpl; [reflexivity|].
  intros Hc. apply orb_false_elim in Hc as [Hp Hc].
  change (strings.HasPrefix (String c s) old = false) in Hp.
  cbn [strings.replace_from]. rewrite Hp. rewrite IH by assumption. reflexivity.
Qed.

End ReplaceFacts.

Lemma short_of_scheme (a : string) :
  a <> "" -> String.length a < 7 -> strings.HasPrefix a "http://" = false.
Proof.
  intros _ Hlen. destruct (strings.HasPrefix a "http://") eqn:Hp; [|reflexivity].
  apply HasPrefix_length in Hp. simpl in Hp. lia.
Qed.

(** A text of seven bytes or more decides by itself whether [http://] is
    a prefix; a shorter one is tried byte by byte against the tail. *)
Ltac by_length_of a Ha :=
  let Hlong := fresh "Hlong" in
  let Hshort := fresh "Hshort" in
  destruct (le_lt_dec 7 (String.length a)) as [Hlong|Hshort];
  [ apply HasPrefix_app_long; exact Hlong
  | rewrite (short_of_scheme a Ha Hshort);
    destruct a as [|? [|? [|? [|? [|? [|? [|? ?]]]]]]];
    simpl in Hshort; try lia; try congruence;
    cbv [String.append]; simpl; rewrite ?andb_false_r; reflexivity ].

(** [http://] has no border: an instance cannot start before another one
    and end inside it. *)
Lemma no_straddle_scheme (b : string) : no_straddle "http://" ("http://" +:+ b).
Proof. intros a Ha. by_length_of a Ha. Qed.

(** Nor can an instance end in a text that starts with a question mark. *)
Lemma no_straddle_query (b : string) : no_straddle "http://" (String "?" b).
Proof. intros a Ha. by_length_of a Ha. Qed.

Lemma no_straddle_empty : no_straddle "http://" "".
Proof.
  intros a _. rewrite append_nil_r. reflexivity.
Qed.

Lemma HasPrefix_app (p s : string) : strings.HasPrefix (p +:+ s) p = true.
Proof.
  induction p as [|c p IH]; [reflexivity|].
  rewrite append_cons. simpl. rewrite Ascii.eqb_refl. exact IH.
Qed.

Lemma Contains_prefix (p s : string) : strings.Contains (p +:+ s) p = true.
Proof.
  destruct p as [|c p]; [destruct s; reflexivity|].
  rewrite append_cons. cbn [strings.Contains].
  rewrite <- append_cons, HasPrefix_app. reflexivity.
Qed.

Lemma Contains_app_r (a s sub : string) :
  strings.Contains s sub = true -> strings.Contains (a +:+ s) sub = true.
Proof.
  intros Hs. induction a as [|c a IH]; [exact Hs|].
  rewrite append_cons. cbn [strings.Contains]. rewrite IH. apply orb_true_r.
Qed.

(** The scheme rewriting leaves a query that starts with a question mark
    where it is, and rewrites inside it as anywhere else. *)
Lemma Replace_query (endpoint value : string) :
  strings.Replace (endpoint +:+ "?units=" +:+ value) "http://" "https://"
  = strings.Replace endpoint "http://" "https://" +:+ "?units="
    +:+ strings.Replace value "http://" "https://".
Proof.
  change (endpoint +:+ "?units=" +:+ value)
    with (endpoint +:+ String "?" ("units=" +:+ value)).
  rewrite Replace_app by apply no_straddle_query. reflexivity.
Qed.

Lemma Replace_occurrence (a b : string) :
  strings.Replace (a +:+ "http://" +:+ b) "http://" "https://"
  = strings.Replace a "http://" "https://" +:+ "https://"
    +:+ strings.Replace b "http://" "https://".
Proof.
  rewrite Replace_app by apply no_straddle_scheme. reflexivity.
Qed.

(** ** The fetch operation, [apiCall] *)

Section Fetch.

Context `{Collaborators}.

(** [apiCall], step by step. *)
Lemma apiCall_eq (endpoint : string) (s : State) :
  apiCall endpoint s =
  let url := strings.Replace endpoint "http://" "https://" in
  match http_NewRequest url with
  | Some err => (Return (None, Some err), s)
  | None =>
      let req := request_for (config s) url in
      (Return
         match http_Do (requests s) req with
         | inr err => (None, Some err)
         | inl res =>
             if (StatusCode res =? 200)%Z then (Some res, None)
             else (None, Some (ErrorsNew (Sprintf_d_s (StatusCode res) (Status res))))
         end,
       log_request s req)
  end.
Proof.
  unfold apiCall. cbv zeta.
  destruct (http_NewRequest _); [reflexivity|].
  unfold bind, get, Do, request_for. cbn.
  destruct (http_Do _ _) as [res|err]; [|reflexivity].
  destruct (StatusCode res =? 200)%Z; reflexivity.
Qed.

Lemma issued_log (s : State) (req : Request) : issued s (log_request s req) = [req].
Proof. unfold issued, log_request. cbn. apply drop_app_length. Qed.

Lemma issued_refl (s : State) : issued s s = [].
Proof. unfold issued. apply drop_all. Qed.

(** [apiCall] hands at most one request to the transport: the GET for the
    rewritten endpoint. *)
Lemma outbound_apiCall (endpoint : string) (s : State) :
  outbound (apiCall endpoint) s
  = get_of (config s) (strings.Replace endpoint "http://" "https://").
Proof.
  unfold outbound, get_of. rewrite apiCall_eq. cbv zeta.
  destruct (http_NewRequest _); cbn [snd]; [apply issued_refl | apply issued_log].
Qed.

(** [apiCall] does not panic, and returns a response or an error, never
    both and never neither. *)
Lemma apiCall_cases (endpoint : string) (s : State) :
  (exists res, fst (apiCall endpoint s) = Return (Some res, None)) \/
  (exists err, fst (apiCall endpoint s) = Return (None, Some err)).
Proof.
  rewrite apiCall_eq. cbv zeta.
  destruct (http_NewRequest _); cbn; [eauto|].
  destruct (http_Do _ _) as [res|err]; [|eauto].
  destruct (StatusCode res =? 200)%Z; eauto.
Qed.

(** [apiCall] touches neither the configuration, nor the cache, nor the
    standard output, and only adds to the requests. *)
Lemma apiCall_frame (endpoint : string) (s : State) :
  let s' := snd (apiCall endpoint s) in
  config s' = config s /\ pointsCache s' = pointsCache s /\ stdout s' = stdout s /\
  requests s' = (requests s ++ outbound (apiCall endpoint) s)%list.
Proof.
  cbv zeta. rewrite outbound_apiCall. unfold get_of. rewrite apiCall_eq. cbv zeta.
  destruct (http_NewRequest _); cbn; rewrite ?app_nil_r; auto.
Qed.

End Fetch.

(** C10.  The scheme rewriting of [apiCall] replaces every occurrence of
    [http://] in the endpoint, wherever it stands: for an endpoint that
    reads [a], then [http://], then [b], the URL of the outbound request
    reads the rewritten [a], then [https://], then the rewritten [b]; and
    the URL requested is the endpoint with all occurrences replaced. *)
Theorem apiCall_rewrites_every_occurrence `{Collaborators} (a b : string) (s : State) :
  outbound (apiCall (a +:+ "http://" +:+ b)) s
  = get_of (config s)
      (strings.Replace a "http://" "https://" +:+ "https://"
       +:+ strings.Replace b "http://" "https://")
  /\ forall endpoint : string,
       outbound (apiCall endpoint) s
       = get_of (config s) (strings.Replace endpoint "http://" "https://").
Proof.
  split; [|intros endpoint; apply outbound_apiCall].
  rewrite outbound_apiCall, Replace_occurrence. reflexivity.
Qed.

(** C3, as amended.  For an endpoint that begins with [http://] and holds
    no further [http://], the outbound GET (made whenever [http.NewRequest]
    accepts the URL) goes to the same URL with the leading [http://]
    rewritten to [https://]; an endpoint that begins with [https://] and
    holds no [http://] is requested as given. *)
Theorem apiCall_rewrites_leading_scheme `{Collaborators} (rest : string) (s : State) :
  strings.Contains rest "http://" = false ->
  outbound (apiCall ("http://" +:+ rest)) s = get_of (config s) ("https://" +:+ rest) /\
  outbound (apiCall ("https://" +:+ rest)) s = get_of (config s) ("https://" +:+ rest).
Proof.
  intros Hrest. rewrite !outbound_apiCall. split.
  - change ("http://" +:+ rest) with ("" +:+ "http://" +:+ rest).
    rewrite Replace_occurrence, (Replace_absent _ _ rest Hrest). reflexivity.
  - rewrite Replace_absent; [reflexivity|].
    cbv [String.append]. cbn. exact Hrest.
Qed.

Lemma apiCall_rewrites_leading_scheme_witness :
  let rest := "api.weather.gov/points/39.7456,-97.0892" in
  let s := initial default_config in
  @outbound _ (@apiCall (fake (always "{}")) ("http://" +:+ rest)) s
  = [request_for default_config ("https://" +:+ rest)] /\
  @outbound _ (@apiCall (fake (always "{}")) ("https://" +:+ rest)) s
  = [request_for default_config ("https://" +:+ rest)].
Proof.
  apply (@apiCall_rewrites_leading_scheme (fake (always "{}"))
           "api.weather.gov/points/39.7456,-97.0892" (initial default_config)).
  vm_compute. reflexivity.
Defined.

(** C3, refuted as stated: with a second [http://] further on in the
    endpoint, the URL requested is not the endpoint with only its leading
    [http://] rewritten, and an endpoint that begins with [https://] is not
    requested as given. *)
Lemma apiCall_leading_scheme_only_refuted :
  let rest := "api.weather.gov/stations?next=http://api.weather.gov/stations/KTOP" in
  let s := initial default_config in
  (map URL (@outbound _ (@apiCall (fake (always "{}")) ("http://" +:+ rest)) s)
   = ["https://api.weather.gov/stations?next=https://api.weather.gov/stations/KTOP"]
   /\ map URL (@outbound _ (@apiCall (fake (always "{}")) ("http://" +:+ rest)) s)
      <> ["https://" +:+ rest])
  /\ (map URL (@outbound _ (@apiCall (fake (always "{}")) ("https://" +:+ rest)) s)
      = ["https://api.weather.gov/stations?next=https://api.weather.gov/stations/KTOP"]
      /\ map URL (@outbound _ (@apiCall (fake (always "{}")) ("https://" +:+ rest)) s)
         <> ["https://" +:+ rest]).
Proof.
  cbv zeta. repeat split; try (vm_compute; reflexivity);
    intros Heq; vm_compute in Heq; discriminate Heq.
Qed.

(** C4.  When the response to the request has a status other than 200,
    [apiCall] returns a nil response and the error made from the numeric
    status code, a space and the status text (so that the text of the error
    for status 404 contains [404]); this is so for every such status alike,
    and the one request is all that goes out. *)
Theorem apiCall_non_200 `{Collaborators} (endpoint : string) (s : State) (res : Response) :
  http_NewRequest (strings.Replace endpoint "http://" "https://") = None ->
  http_Do (requests s)
    (request_for (config s) (strings.Replace endpoint "http://" "https://")) = inl res ->
  StatusCode res <> 200%Z ->
  fst (apiCall endpoint s)
  = Return (None, Some (ErrorsNew (Sprintf_d (StatusCode res) +:+ " " +:+ Status res)))
  /\ outbound (apiCall endpoint) s
     = [request_for (config s) (strings.Replace endpoint "http://" "https://")]
  /\ strings.HasPrefix (Sprintf_d (StatusCode res) +:+ " " +:+ Status res)
       (Sprintf_d (StatusCode res)) = true
  /\ strings.Contains (Sprintf_d (StatusCode res) +:+ " " +:+ Status res)
       (Status res) = true
  /\ (StatusCode res = 404%Z ->
      strings.Contains (Sprintf_d (StatusCode res) +:+ " " +:+ Status res) "404" = true).
Proof.
  intros Hnew Hdo Hcode. repeat split.
  - rewrite apiCall_eq. cbv zeta. rewrite Hnew, Hdo. cbn [fst].
    destruct (Z.eqb_spec (StatusCode res) 200) as [Heq|_]; [contradiction|reflexivity].
  - rewrite outbound_apiCall. unfold get_of. rewrite Hnew. reflexivity.
  - apply HasPrefix_app.
  - do 2 apply Contains_app_r. rewrite <- (append_nil_r (Status res)) at 1.
    apply Contains_prefix.
  - intros H404. rewrite H404. change (Sprintf_d 404) with "404". apply Contains_prefix.
Qed.

Lemma apiCall_non_200_witness :
  fst (@apiCall (fake (status 404 "404 Not Found")) "http://api.weather.gov/points/0,0"
         (initial default_config))
  = Return (None, Some (ErrorsNew "404 404 Not Found")).
Proof.
  refine (proj1 (@apiCall_non_200 (fake (status 404 "404 Not Found"))
                   "http://api.weather.gov/points/0,0" (initial default_config)
                   {| StatusCode := 404; Status := "404 Not Found";
                      Body := {| data := ""; read_error := None |} |} _ _ _));
    [reflexivity | reflexivity | cbn; lia].
Defined.

(** ** The point cache *)

Section PointCache.

Context `{Collaborators}.

(** [Points], step by step. *)
Lemma Points_eq (lat lon : string) (s : State) :
  Points lat lon s =
  let endpoint := points_endpoint (config s) lat lon in
  match map_index (pointsCache s) endpoint with
  | Some points => (Return (Some points, None), s)
  | None =>
      match apiCall endpoint s with
      | (Return (_, Some err), s1) => (Return (None, Some err), s1)
      | (Return (None, None), s1) => (Panic, s1)
      | (Return (Some res, None), s1) =>
          match Decode_PointsResponse (Body res) with
          | (_, Some err) => (Return (None, Some err), s1)
          | (points, None) => (Return (points, None), store_point s1 endpoint points)
          end
      | (Panic, s1) => (Panic, s1)
      end
  end.
Proof.
  unfold Points, points_endpoint, bind, get. cbn.
  destruct (map_index _ _); [reflexivity|].
  destruct (apiCall _ s) as [[[[res|] [err|]]|] s1]; try reflexivity.
  cbn. destruct (Decode_PointsResponse _) as [points [err|]]; reflexivity.
Qed.

Lemma map_index_insert_eq (m : gmap string (ptr PointsResponse)) (k : string)
    (p : ptr PointsResponse) :
  map_index (<[k := p]> m) k = p.
Proof. unfold map_index. rewrite lookup_insert_eq. reflexivity. Qed.

Lemma map_index_insert_ne (m : gmap string (ptr PointsResponse)) (k k' : string)
    (p : ptr PointsResponse) :
  k <> k' -> map_index (<[k := p]> m) k' = map_index m k'.
Proof. intros Hne. unfold map_index. rewrite lookup_insert_ne by exact Hne. reflexivity. Qed.

(** A call that hits the cache neither changes the state nor makes a
    request. *)
Lemma Points_hit (lat lon : string) (s : State) (p : PointsResponse) :
  map_index (pointsCache s) (points_endpoint (config s) lat lon) = Some p ->
  Points lat lon s = (Return (Some p, None), s).
Proof. intros Hhit. rewrite Points_eq. cbv zeta. rewrite Hhit. reflexivity. Qed.

(** After a call that returned a [PointsResponse], the cache holds it
    under the call's endpoint; the configuration is as before; and one
    request went out if the endpoint was not cached, none if it was. *)
Lemma Points_success (lat lon : string) (s s1 : State) (p : PointsResponse) :
  Points lat lon s = (Return (Some p, None), s1) ->
  config s1 = config s /\
  map_index (pointsCache s1) (points_endpoint (config s) lat lon) = Some p /\
  issued s s1
  = match map_index (pointsCache s) (points_endpoint (config s) lat lon) with
    | Some _ => []
    | None => [request_for (config s)
                 (strings.Replace (points_endpoint (config s) lat lon)
                    "http://" "https://")]
    end.
Proof.
  rewrite Points_eq. cbv zeta.
  destruct (map_index _ _) as [q|] eqn:Hidx.
  - intros [= -> ->]. rewrite issued_refl. auto.
  - pose proof (apiCall_frame (points_endpoint (config s) lat lon) s) as Hframe.
    pose proof (outbound_apiCall (points_endpoint (config s) lat lon) s) as Hout.
    cbv zeta in Hframe. unfold outbound in Hout, Hframe.
    rewrite apiCall_eq in *. cbv zeta in *.
    destruct (http_NewRequest _) as [e|] eqn:Hnew; [discriminate|].
    cbn [snd] in Hframe, Hout. destruct Hframe as (Hcfg & Hcache & _ & _).
    destruct (http_Do _ _) as [res|e]; [|discriminate].
    destruct (StatusCode res =? 200)%Z; [|discriminate].
    destruct (Decode_PointsResponse _) as [points [e|]]; [discriminate|].
    intros [= -> <-]. cbn. rewrite map_index_insert_eq.
    repeat split. unfold issued. cbn. apply drop_app_length.
Qed.

(** Storing under an endpoint that misses keeps every entry. *)
Lemma cache_le_store (m : gmap string (ptr PointsResponse)) (k : string)
    (points : ptr PointsResponse) :
  map_index m k = None -> cache_le m (<[k := points]> m).
Proof.
  intros Hmiss. split.
  - rewrite dom_insert. set_solver.
  - intros k' p Hk'. destruct (decide (k = k')) as [->|Hne].
    + congruence.
    + rewrite map_index_insert_ne by exact Hne. exact Hk'.
Qed.

Lemma cache_le_refl (m : gmap string (ptr PointsResponse)) : cache_le m m.
Proof. split; [set_solver | auto]. Qed.

Lemma cache_le_trans (m1 m2 m3 : gmap string (ptr PointsResponse)) :
  cache_le m1 m2 -> cache_le m2 m3 -> cache_le m1 m3.
Proof. intros [Hd1 Hi1] [Hd2 Hi2]. split; [set_solver | auto]. Qed.

(** A call of [Points] that returns an error returns no value and leaves
    the cache as it was. *)
Lemma Points_failure (lat lon : string) (s s' : State) (v : ptr PointsResponse)
    (e : error) :
  Points lat lon s = (Return (v, Some e), s') ->
  v = None /\ pointsCache s' = pointsCache s.
Proof.
  rewrite Points_eq. cbv zeta.
  destruct (map_index _ _) as [q|]; [discriminate|].
  pose proof (apiCall_frame (points_endpoint (config s) lat lon) s) as Hframe.
  cbv zeta in Hframe. destruct Hframe as (_ & Hcache & _ & _).
  destruct (apiCall _ s) as [[[[res|] [err|]]|] s1]; try discriminate;
    cbn [snd] in Hcache.
  - intros [= <- _ <-]. auto.
  - destruct (Decode_PointsResponse _) as [points [err|]]; [|discriminate].
    intros [= <- _ <-]. auto.
  - intros [= <- _ <-]. auto.
Qed.

(** When the fetch or the decoding of a call that misses the cache fails,
    the call returns that error and no value, and the cache is as before. *)
Lemma Points_failing_step (lat lon : string) (s : State) (e : error) :
  map_index (pointsCache s) (points_endpoint (config s) lat lon) = None ->
  fetch_or_decode (points_endpoint (config s) lat lon) Decode_PointsResponse s e ->
  fst (Points lat lon s) = Return (None, Some e)
  /\ pointsCache (snd (Points lat lon s)) = pointsCache s.
Proof.
  intros Hmiss Hfail. unfold fetch_or_decode in Hfail.
  rewrite Points_eq. cbv zeta. rewrite Hmiss.
  destruct (apiCall_frame (points_endpoint (config s) lat lon) s) as (_ & Hcache & _).
  destruct (apiCall _ s) as [r s1]. cbn [fst snd] in *.
  destruct Hfail as [-> | (res & -> & Hdec)]; [auto|].
  destruct (Decode_PointsResponse _) as [points err]. cbn [snd] in Hdec. subst err. auto.
Qed.

(** When the decoder leaves the pointer nil and returns no error (the
    body is the JSON text [null]), [Points] returns neither a value nor
    an error and binds the endpoint to nil, which a later call takes for
    a miss. *)
Lemma Points_nil_decoded (lat lon : string) (s : State) (res : Response) :
  map_index (pointsCache s) (points_endpoint (config s) lat lon) = None ->
  fst (apiCall (points_endpoint (config s) lat lon) s) = Return (Some res, None) ->
  Decode_PointsResponse (Body res) = (None, None) ->
  fst (Points lat lon s) = Return (None, None)
  /\ pointsCache (snd (Points lat lon s))
     = <[points_endpoint (config s) lat lon := None]> (pointsCache s)
  /\ map_index (pointsCache (snd (Points lat lon s)))
       (points_endpoint (config s) lat lon) = None.
Proof.
  intros Hmiss Hfetch Hdec. rewrite Points_eq. cbv zeta. rewrite Hmiss.
  destruct (apiCall_frame (points_endpoint (config s) lat lon) s) as (_ & Hcache & _).
  destruct (apiCall _ s) as [r s1]. cbn [fst snd] in *. subst r.
  rewrite Hdec. cbn. rewrite Hcache, map_index_insert_eq. auto.
Qed.

End PointCache.

(** With such a body, the operations that go on to read a field of the
    point panic: they dereference the nil pointer. *)
Example Forecast_of_nil_point_panics :
  fst (@Forecast (fake (always "null")) "39.7456" "-97.0892" (initial default_config))
  = Panic.
Proof. vm_compute. reflexivity. Qed.

Section CacheGrowth.

Context `{Collaborators}.

Lemma grows_ret {A} (a : A) : grows (ret a).
Proof. intros s. apply cache_le_refl. Qed.

Lemma grows_bind {A B} (m : M A) (k : A -> M B) :
  grows m -> (forall a, grows (k a)) -> grows (bind m k).
Proof.
  intros Hm Hk s. unfold bind. specialize (Hm s).
  destruct (m s) as [[a|] s1]; cbn [snd] in Hm.
  - eapply cache_le_trans; [exact Hm | apply Hk].
  - exact Hm.
Qed.

Lemma grows_get {A} (f : State -> A) : grows (get f).
Proof. intros s. apply cache_le_refl. Qed.

Lemma grows_deref {A} (p : ptr A) : grows (deref p).
Proof. intros s. destruct p; apply cache_le_refl. Qed.

Lemma grows_Println (text : string) (e : error) : grows (Println text e).
Proof. intros s. apply cache_le_refl. Qed.

Lemma grows_apiCall (endpoint : string) : grows (apiCall endpoint).
Proof.
  intros s. destruct (apiCall_frame endpoint s) as (_ & -> & _). apply cache_le_refl.
Qed.

Lemma grows_Points (lat lon : string) : grows (Points lat lon).
Proof.
  intros s. rewrite Points_eq. cbv zeta.
  destruct (map_index _ _) as [q|] eqn:Hidx; [apply cache_le_refl|].
  destruct (apiCall_frame (points_endpoint (config s) lat lon) s) as (_ & Hcache & _).
  destruct (apiCall _ s) as [[[[res|] [err|]]|] s1]; cbn [snd] in *;
    try (rewrite Hcache; apply cache_le_refl).
  destruct (Decode_PointsResponse _) as [points [err|]]; cbn [snd];
    [rewrite Hcache; apply cache_le_refl|].
  cbn. rewrite Hcache. apply cache_le_store. exact Hidx.
Qed.

(** The steps the operations are put together from. *)
Ltac grows_step :=
  first
    [ apply grows_ret
    | apply grows_Points
    | apply grows_apiCall
    | apply grows_get
    | apply grows_deref
    | apply grows_Println
    | apply grows_bind; [|intros ?]
    | match goal with
      | |- grows (match ?x with _ => _ end) => destruct x
      end ].

Lemma grows_run (c : Call) (s : State) :
  cache_le (pointsCache s) (pointsCache (snd (run c s))).
Proof.
  assert (Herr : forall A (m : M (A * option error)),
             grows m -> cache_le (pointsCache s) (pointsCache (snd (err_of (m s))))).
  { intros A m Hm. specialize (Hm s). destruct (m s) as [[[v e]|] s1]; exact Hm. }
  destruct c; cbn [run]; apply Herr;
    unfold Office, Stations, Forecast, GridpointForecast, HourlyForecast,
      LatestStationObservation, Alerts; repeat grows_step.
Qed.

Lemma grows_run_all (cs : list Call) (s : State) :
  cache_le (pointsCache s) (pointsCache (run_all cs s)).
Proof.
  revert s. induction cs as [|c cs IH]; intros s; cbn [run_all].
  - apply cache_le_refl.
  - eapply cache_le_trans; [apply grows_run | apply IH].
Qed.

End CacheGrowth.

(** C1.  After a call of [Points] that returned a [PointsResponse] and no
    error, a second call for the same coordinates returns the same
    [PointsResponse] and no error, leaves the state as it is and hands no
    request to the transport; the requests of the two calls together are
    the ones of the first call: exactly one, the GET for the point's
    endpoint, when the endpoint was not cached before the first call (and
    none when it was). *)
Theorem Points_second_call_cached `{Collaborators} (lat lon : string) (s s1 : State)
    (p : PointsResponse) :
  Points lat lon s = (Return (Some p, None), s1) ->
  Points lat lon s1 = (Return (Some p, None), s1)
  /\ outbound (Points lat lon) s1 = []
  /\ issued s (snd (Points lat lon s1))
     = match map_index (pointsCache s) (points_endpoint (config s) lat lon) with
       | Some _ => []
       | None => [request_for (config s)
                    (strings.Replace (points_endpoint (config s) lat lon)
                       "http://" "https://")]
       end.
Proof.
  intros Hfirst. destruct (Points_success lat lon s s1 p Hfirst) as (Hcfg & Hidx & Hreq).
  assert (Hsecond : Points lat lon s1 = (Return (Some p, None), s1)).
  { apply Points_hit. rewrite Hcfg. exact Hidx. }
  unfold outbound. rewrite Hsecond. cbn [snd]. rewrite issued_refl. auto.
Qed.

Lemma Points_second_call_cached_witness :
  let W := fake (always "{}") in
  let s := initial default_config in
  let s1 := snd (@Points W "39.7456" "-97.0892" s) in
  @Points W "39.7456" "-97.0892" s1 = (Return (Some sample_point, None), s1)
  /\ @outbound _ (@Points W "39.7456" "-97.0892") s1 = []
  /\ issued s (snd (@Points W "39.7456" "-97.0892" s1))
     = [request_for default_config "https://api.weather.gov/points/39.7456,-97.0892"].
Proof.
  cbv zeta.
  apply (@Points_second_call_cached (fake (always "{}")) "39.7456" "-97.0892"
           (initial default_config)).
  vm_compute. reflexivity.
Defined.

(** C2.  The point cache keeps successes only and loses nothing: when the
    fetch or the decoding fails in a call of [Points], the call returns
    that error and no value and leaves the cache exactly as it was, as does
    every call of [Points] that returns an error; and under every
    operation, hence under every sequence of calls, no key of the cache is
    removed and a key bound to a [PointsResponse] stays bound to that same
    [PointsResponse]. *)
Theorem cache_keeps_successes_and_never_evicts `{Collaborators} :
  (forall (lat lon : string) (s : State) (e : error),
      map_index (pointsCache s) (points_endpoint (config s) lat lon) = None ->
      fetch_or_decode (points_endpoint (config s) lat lon) Decode_PointsResponse s e ->
      fst (Points lat lon s) = Return (None, Some e)
      /\ pointsCache (snd (Points lat lon s)) = pointsCache s)
  /\ (forall (lat lon : string) (s s' : State) (v : ptr PointsResponse) (e : error),
        Points lat lon s = (Return (v, Some e), s') ->
        v = None /\ pointsCache s' = pointsCache s)
  /\ (forall (c : Call) (s : State) (k : string),
        (k ∈ dom (pointsCache s) -> k ∈ dom (pointsCache (snd (run c s))))
        /\ (forall p : PointsResponse,
              map_index (pointsCache s) k = Some p ->
              map_index (pointsCache (snd (run c s))) k = Some p))
  /\ (forall (cs : list Call) (s : State) (k : string),
        (k ∈ dom (pointsCache s) -> k ∈ dom (pointsCache (run_all cs s)))
        /\ (forall p : PointsResponse,
              map_index (pointsCache s) k = Some p ->
              map_index (pointsCache (run_all cs s)) k = Some p)).
Proof.
  split; [|split; [|split]].
  - intros lat lon s e. apply Points_failing_step.
  - intros lat lon s s' v e Hcall. eapply Points_failure. exact Hcall.
  - intros c s k. destruct (grows_run c s) as [Hdom Hidx]. split; [set_solver | auto].
  - intros cs s k. destruct (grows_run_all cs s) as [Hdom Hidx]. split; [set_solver | auto].
Qed.

Lemma cache_keeps_successes_and_never_evicts_witness :
  let W := fake (first_then "{}" "oops") in
  let s1 := snd (@Points W "39.7456" "-97.0892" (initial default_config)) in
  pointsCache (snd (@Points W "40.0" "-98.0" s1)) = pointsCache s1
  /\ map_index
       (pointsCache
          (@run_all W [CallPoints "40.0" "-98.0"; CallForecast "39.7456" "-97.0892"] s1))
       "https://api.weather.gov/points/39.7456,-97.0892"
     = Some sample_point.
Proof.
  cbv zeta. split.
  - refine (proj2 (proj1 (@cache_keeps_successes_and_never_evicts
                            (fake (first_then "{}" "oops")))
                     "40.0" "-98.0" _ (Foreign "invalid character") _ _)).
    + vm_compute. reflexivity.
    + right. exists (ok "oops"). split; vm_compute; reflexivity.
  - refine (proj2 (proj2 (proj2 (proj2 (@cache_keeps_successes_and_never_evicts
                                          (fake (first_then "{}" "oops")))))
                     _ _ _) sample_point _).
    vm_compute. reflexivity.
Defined.

(** ** The operations that resolve a point first *)

Section ViaPoint.

Context `{Collaborators}.

Ltac run_through :=
  unfold via_point, bind, get, deref, attach_point, as_decoded;
  repeat
    match goal with
    | |- context [Points ?lat ?lon ?s] =>
        destruct (Points lat lon s) as [[[[?|] [?|]]|] ?]; cbn
    | |- context [apiCall ?e ?s] =>
        destruct (apiCall e s) as [[[[?|] [?|]]|] ?]; cbn
    | |- context [match ?d (Body ?res) with _ => _ end] =>
        destruct (d (Body res)) as [[?|] [?|]]; cbn
    end;
  try reflexivity.

Lemma Stations_eq (lat lon : string) (s : State) :
  Stations lat lon s
  = via_point (fun p _ => EndpointObservationStations p)
      Decode_StationsResponse as_decoded lat lon s.
Proof. unfold Stations. run_through. Qed.

Lemma Forecast_eq (lat lon : string) (s : State) :
  Forecast lat lon s
  = via_point (fun p cfg => EndpointForecast p +:+ units_query cfg)
      Decode_ForecastResponse attach_point lat lon s.
Proof. unfold Forecast. run_through. Qed.

Lemma GridpointForecast_eq (lat long : string) (s : State) :
  GridpointForecast lat long s
  = via_point (fun p cfg => EndpointForecastGridData p +:+ units_query cfg)
      Decode_GridpointForecastResponse attach_point lat long s.
Proof. unfold GridpointForecast. run_through. Qed.

Lemma HourlyForecast_eq (lat long : string) (s : State) :
  HourlyForecast lat long s
  = via_point (fun p cfg => EndpointForecastHourly p +:+ units_query cfg)
      Decode_HourlyForecastResponse attach_point lat long s.
Proof. unfold HourlyForecast. run_through. Qed.

Variable T : Type.
Variable endpoint_of : PointsResponse -> Config -> string.
Variable decode : Body_ -> ptr T * option error.
Variable finish : ptr T -> PointsResponse -> outcome (ptr T).

(** Once the point is resolved, what goes out is the GET for the
    endpoint of the point, rewritten by [apiCall]. *)
Lemma via_point_requests (lat lon : string) (s s1 : State) (p : PointsResponse) :
  Points lat lon s = (Return (Some p, None), s1) ->
  issued s1 (snd (via_point endpoint_of decode finish lat lon s))
  = get_of (config s)
      (strings.Replace (endpoint_of p (config s)) "http://" "https://").
Proof.
  intros Hpoint. destruct (Points_success _ _ _ _ _ Hpoint) as (Hcfg & _ & _).
  unfold via_point. rewrite Hpoint, <- Hcfg, <- outbound_apiCall. unfold outbound.
  destruct (apiCall _ s1) as [[[[res|] [e|]]|] s2]; cbn [snd]; try reflexivity.
  destruct (decode _) as [v [e|]]; [reflexivity|].
  destruct (finish v p); reflexivity.
Qed.

(** When all four steps go through, the call returns what [finish] made. *)
Lemma via_point_forward (lat lon : string) (s s1 s' : State) (p : PointsResponse)
    (res : Response) (v r : ptr T) :
  Points lat lon s = (Return (Some p, None), s1) ->
  apiCall (endpoint_of p (config s1)) s1 = (Return (Some res, None), s') ->
  decode (Body res) = (v, None) ->
  finish v p = Return r ->
  via_point endpoint_of decode finish lat lon s = (Return (r, None), s').
Proof.
  intros Hpoint Hfetch Hdec Hfin. unfold via_point.
  rewrite Hpoint, Hfetch, Hdec, Hfin. reflexivity.
Qed.

(** A call that returns no error went through all four steps. *)
Lemma via_point_success (lat lon : string) (s s' : State) (r : ptr T) :
  via_point endpoint_of decode finish lat lon s = (Return (r, None), s') ->
  exists (p : PointsResponse) (s1 : State) (res : Response) (v : ptr T),
    Points lat lon s = (Return (Some p, None), s1)
    /\ apiCall (endpoint_of p (config s1)) s1 = (Return (Some res, None), s')
    /\ decode (Body res) = (v, None)
    /\ finish v p = Return r.
Proof.
  unfold via_point.
  destruct (Points lat lon s) as [[[[p|] [e|]]|] s1]; try discriminate.
  destruct (apiCall _ s1) as [[[[res|] [e|]]|] s2] eqn:Hcall; try discriminate.
  destruct (decode _) as [v [e|]] eqn:Hdec; [discriminate|].
  destruct (finish v p) as [r'|] eqn:Hfin; [|discriminate].
  intros [= -> ->]. exists p, s1, res, v. auto.
Qed.

Lemma Points_error (lat lon : string) (s : State) (v : ptr PointsResponse) (e : error) :
  fst (Points lat lon s) = Return (v, Some e) ->
  fetch_or_decode (points_endpoint (config s) lat lon) Decode_PointsResponse s e.
Proof.
  rewrite Points_eq. cbv zeta. unfold fetch_or_decode.
  destruct (map_index _ _); [discriminate|].
  destruct (apiCall_cases (points_endpoint (config s) lat lon) s) as [[res Hr]|[err Hr]];
    destruct (apiCall _ s) as [r s1]; cbn [fst] in Hr; subst r; cbn.
  - destruct (Decode_PointsResponse _) as [points [err|]] eqn:Hdec; cbn; [|discriminate].
    intros [= _ ->]. right. exists res. rewrite Hdec. auto.
  - intros [= _ ->]. left. reflexivity.
Qed.

(** A call that returns an error returns no value, and the error is the
    one of the step that failed. *)
Lemma via_point_error (lat lon : string) (s : State) (v : ptr T) (e : error) :
  fst (via_point endpoint_of decode finish lat lon s) = Return (v, Some e) ->
  v = None /\ point_fetch_or_decode endpoint_of decode lat lon s e.
Proof.
  unfold via_point, point_fetch_or_decode.
  destruct (Points lat lon s) as [[[[p|] [e0|]]|] s1] eqn:Hpoint; cbn; try discriminate.
  - intros [= <- ->]. split; [reflexivity|]. left.
    eapply Points_error. rewrite Hpoint. reflexivity.
  - destruct (apiCall_cases (endpoint_of p (config s1)) s1) as [[res Hr]|[e1 Hr]];
      destruct (apiCall _ s1) as [r s2] eqn:Hcall; cbn [fst] in Hr; subst r; cbn.
    + destruct (decode _) as [w [e2|]] eqn:Hdec; cbn.
      * intros [= <- ->]. split; [reflexivity|]. right. exists p, s1.
        split; [reflexivity|]. right. exists res. rewrite Hcall, Hdec. auto.
      * destruct (finish w p); discriminate.
    + intros [= <- ->]. split; [reflexivity|]. right. exists p, s1.
      split; [reflexivity|]. left. rewrite Hcall. reflexivity.
  - intros [= <- ->]. split; [reflexivity|]. left.
    eapply Points_error. rewrite Hpoint. reflexivity.
Qed.

End ViaPoint.

(** C6.  With the unit system [us] configured, the request that
    [Forecast], [HourlyForecast] and [GridpointForecast] make once the point
    is resolved goes to the point's endpoint (as rewritten by [apiCall])
    followed by [?units=us]; with the unit system unset it goes to the
    endpoint alone: nothing is appended, no units parameter and no empty
    one. *)
Theorem units_us_appended_unset_omitted `{Collaborators} (lat lon : string)
    (s s1 : State) (p : PointsResponse) :
  Points lat lon s = (Return (Some p, None), s1) ->
  (Units (config s) = "us" ->
   issued s1 (snd (Forecast lat lon s))
   = get_of (config s) (https (EndpointForecast p) +:+ "?units=us")
   /\ issued s1 (snd (HourlyForecast lat lon s))
      = get_of (config s) (https (EndpointForecastHourly p) +:+ "?units=us")
   /\ issued s1 (snd (GridpointForecast lat lon s))
      = get_of (config s) (https (EndpointForecastGridData p) +:+ "?units=us"))
  /\ (Units (config s) = "" ->
      issued s1 (snd (Forecast lat lon s)) = get_of (config s) (https (EndpointForecast p))
      /\ issued s1 (snd (HourlyForecast lat lon s))
         = get_of (config s) (https (EndpointForecastHourly p))
      /\ issued s1 (snd (GridpointForecast lat lon s))
         = get_of (config s) (https (EndpointForecastGridData p))).
Proof.
  intros Hpoint.
  rewrite Forecast_eq, HourlyForecast_eq, GridpointForecast_eq.
  rewrite !(via_point_requests _ _ _ _ lat lon s s1 p Hpoint).
  unfold units_query. split; intros ->; cbn [String.eqb negb].
  - rewrite !Replace_query. auto.
  - rewrite !append_nil_r. auto.
Qed.

Lemma units_us_appended_unset_omitted_witness :
  let W := fake (always "{}") in
  let us := {| BaseURL := "https://api.weather.gov"; UserAgent := "github.com/icodealot/noaa";
               Accept := "application/ld+json"; Units := "us" |} in
  map URL (issued (snd (@Points W "39.7456" "-97.0892" (initial us)))
             (snd (@Forecast W "39.7456" "-97.0892" (initial us))))
  = ["https://api.weather.gov/gridpoints/TOP/32,81/forecast?units=us"]
  /\ map URL (issued (snd (@Points W "39.7456" "-97.0892" (initial default_config)))
                (snd (@Forecast W "39.7456" "-97.0892" (initial default_config))))
     = ["https://api.weather.gov/gridpoints/TOP/32,81/forecast"].
Proof.
  cbv zeta. split.
  - match goal with
    | |- context [initial ?cfg] =>
        rewrite (proj1 (proj1 (@units_us_appended_unset_omitted (fake (always "{}"))
                   "39.7456" "-97.0892" (initial cfg)
                   (snd (@Points (fake (always "{}")) "39.7456" "-97.0892" (initial cfg)))
                   sample_point ltac:(vm_compute; reflexivity)) ltac:(reflexivity)))
    end.
    reflexivity.
  - rewrite (proj1 (proj2 (@units_us_appended_unset_omitted (fake (always "{}"))
               "39.7456" "-97.0892" (initial default_config)
               (snd (@Points (fake (always "{}")) "39.7456" "-97.0892"
                       (initial default_config)))
               sample_point ltac:(vm_compute; reflexivity)) ltac:(reflexivity))).
    reflexivity.
Defined.

(** C5, as amended.  With a unit system configured, the request that
    [Forecast], [HourlyForecast] and [GridpointForecast] make once the point
    is resolved is the GET for the operation's endpoint of the resolved
    point with [?units=] and the configured value appended (the URL is then
    rewritten by [apiCall], which leaves the appended [?units=] in place);
    the request of [Stations] is the GET for [EndpointObservationStations]
    with nothing appended, whatever the unit system. *)
Theorem units_appended_by_forecasts_not_by_stations `{Collaborators} (lat lon : string)
    (s s1 : State) (p : PointsResponse) :
  Points lat lon s = (Return (Some p, None), s1) ->
  (Units (config s) <> "" ->
   issued s1 (snd (Forecast lat lon s))
   = get_of (config s) (https (EndpointForecast p +:+ "?units=" +:+ Units (config s)))
   /\ issued s1 (snd (HourlyForecast lat lon s))
      = get_of (config s) (https (EndpointForecastHourly p +:+ "?units=" +:+ Units (config s)))
   /\ issued s1 (snd (GridpointForecast lat lon s))
      = get_of (config s)
          (https (EndpointForecastGridData p +:+ "?units=" +:+ Units (config s))))
  /\ (forall endpoint : string,
        https (endpoint +:+ "?units=" +:+ Units (config s))
        = https endpoint +:+ "?units=" +:+ https (Units (config s)))
  /\ issued s1 (snd (Stations lat lon s))
     = get_of (config s) (https (EndpointObservationStations p)).
Proof.
  intros Hpoint.
  rewrite Forecast_eq, HourlyForecast_eq, GridpointForecast_eq, Stations_eq.
  rewrite !(via_point_requests _ _ _ _ lat lon s s1 p Hpoint).
  split; [|split; [intros endpoint; apply Replace_query | reflexivity]].
  intros Hunits. unfold units_query.
  destruct (String.eqb_spec (Units (config s)) "") as [Hempty|_]; [contradiction|].
  cbn [negb]. repeat split.
Qed.

Lemma units_appended_by_forecasts_not_by_stations_witness :
  let W := fake (always "{}") in
  let si := {| BaseURL := "https://api.weather.gov"; UserAgent := "github.com/icodealot/noaa";
               Accept := "application/ld+json"; Units := "si" |} in
  map URL (issued (snd (@Points W "39.7456" "-97.0892" (initial si)))
             (snd (@GridpointForecast W "39.7456" "-97.0892" (initial si))))
  = ["https://api.weather.gov/gridpoints/TOP/32,81?units=si"]
  /\ map URL (issued (snd (@Points W "39.7456" "-97.0892" (initial si)))
                (snd (@Stations W "39.7456" "-97.0892" (initial si))))
     = ["https://api.weather.gov/gridpoints/TOP/32,81/stations"].
Proof.
  cbv zeta.
  match goal with
  | |- context [initial ?cfg] =>
      pose proof (@units_appended_by_forecasts_not_by_stations (fake (always "{}"))
                    "39.7456" "-97.0892" (initial cfg)
                    (snd (@Points (fake (always "{}")) "39.7456" "-97.0892" (initial cfg)))
                    sample_point ltac:(vm_compute; reflexivity))
        as (Hforecasts & _ & Hstations);
      destruct (Hforecasts ltac:(vm_compute; discriminate)) as (_ & _ & Hgrid)
  end.
  rewrite Hgrid, Hstations. split; reflexivity.
Defined.

(** C5, refuted as stated: with the unit system [us] configured,
    [Stations] requests the station-list endpoint of the resolved point as
    it is, not with [?units=us] appended. *)
Lemma Stations_units_refuted :
  let W := fake (always "{}") in
  let us := {| BaseURL := "https://api.weather.gov"; UserAgent := "github.com/icodealot/noaa";
               Accept := "application/ld+json"; Units := "us" |} in
  @Points W "39.7456" "-97.0892" (initial us)
  = (Return (Some sample_point, None), snd (@Points W "39.7456" "-97.0892" (initial us)))
  /\ map URL (issued (snd (@Points W "39.7456" "-97.0892" (initial us)))
                (snd (@Stations W "39.7456" "-97.0892" (initial us))))
     = [EndpointObservationStations sample_point]
  /\ map URL (issued (snd (@Points W "39.7456" "-97.0892" (initial us)))
                (snd (@Stations W "39.7456" "-97.0892" (initial us))))
     <> [EndpointObservationStations sample_point +:+ "?units=us"].
Proof.
  cbv zeta. repeat split; try (vm_compute; reflexivity).
  intros Heq. vm_compute in Heq. discriminate Heq.
Qed.

(** C7.  A call of [Forecast], [HourlyForecast] or [GridpointForecast]
    that returns no error returns a forecast, and its [Point] is the
    [PointsResponse] that [Points] returned for the coordinates, the one
    whose endpoint was fetched.  A call of [Stations] that returns no error
    returns what the decoder made of the body, as it is: nothing is
    attached to it (and [StationsResponse] has no field to attach a point
    to).  And the operations do return so: once [Points] has returned a
    point, the fetch of the operation's endpoint of that point has returned
    a response and the decoder has made a forecast of its body, each
    forecast operation returns a forecast whose [Point] is that point, and
    no error; [Stations] returns what the decoder made, and no error. *)
Theorem forecasts_carry_the_point `{Collaborators} (lat lon : string) (s : State) :
  (forall (s' : State) (v : ptr ForecastResponse),
      Forecast lat lon s = (Return (v, None), s') ->
      exists (f : ForecastResponse) (p : PointsResponse) (s1 : State),
        v = Some f /\ Points lat lon s = (Return (Some p, None), s1) /\ Point f = Some p)
  /\ (forall (s' : State) (v : ptr HourlyForecastResponse),
        HourlyForecast lat lon s = (Return (v, None), s') ->
        exists (f : HourlyForecastResponse) (p : PointsResponse) (s1 : State),
          v = Some f /\ Points lat lon s = (Return (Some p, None), s1) /\ Point f = Some p)
  /\ (forall (s' : State) (v : ptr GridpointForecastResponse),
        GridpointForecast lat lon s = (Return (v, None), s') ->
        exists (f : GridpointForecastResponse) (p : PointsResponse) (s1 : State),
          v = Some f /\ Points lat lon s = (Return (Some p, None), s1) /\ Point f = Some p)
  /\ (forall (s' : State) (v : ptr StationsResponse),
        Stations lat lon s = (Return (v, None), s') ->
        exists (p : PointsResponse) (s1 : State) (res : Response),
          Points lat lon s = (Return (Some p, None), s1)
          /\ apiCall (EndpointObservationStations p) s1 = (Return (Some res, None), s')
          /\ Decode_StationsResponse (Body res) = (v, None))
  /\ (forall (p : PointsResponse) (s1 s' : State) (res : Response) (f0 : ForecastResponse),
        Points lat lon s = (Return (Some p, None), s1) ->
        apiCall (EndpointForecast p +:+ units_query (config s1)) s1
        = (Return (Some res, None), s') ->
        Decode_ForecastResponse (Body res) = (Some f0, None) ->
        exists f : ForecastResponse,
          Forecast lat lon s = (Return (Some f, None), s') /\ Point f = Some p)
  /\ (forall (p : PointsResponse) (s1 s' : State) (res : Response)
             (f0 : HourlyForecastResponse),
        Points lat lon s = (Return (Some p, None), s1) ->
        apiCall (EndpointForecastHourly p +:+ units_query (config s1)) s1
        = (Return (Some res, None), s') ->
        Decode_HourlyForecastResponse (Body res) = (Some f0, None) ->
        exists f : HourlyForecastResponse,
          HourlyForecast lat lon s = (Return (Some f, None), s') /\ Point f = Some p)
  /\ (forall (p : PointsResponse) (s1 s' : State) (res : Response)
             (f0 : GridpointForecastResponse),
        Points lat lon s = (Return (Some p, None), s1) ->
        apiCall (EndpointForecastGridData p +:+ units_query (config s1)) s1
        = (Return (Some res, None), s') ->
        Decode_GridpointForecastResponse (Body res) = (Some f0, None) ->
        exists f : GridpointForecastResponse,
          GridpointForecast lat lon s = (Return (Some f, None), s') /\ Point f = Some p)
  /\ (forall (p : PointsResponse) (s1 s' : State) (res : Response)
             (v : ptr StationsResponse),
        Points lat lon s = (Return (Some p, None), s1) ->
        apiCall (EndpointObservationStations p) s1 = (Return (Some res, None), s') ->
        Decode_StationsResponse (Body res) = (v, None) ->
        Stations lat lon s = (Return (v, None), s')).
Proof.
  assert (Hattach : forall F (w : ptr (WithPoint F)) (p : PointsResponse) (v : ptr (WithPoint F)),
             attach_point w p = Return v -> exists f, v = Some f /\ Point f = Some p).
  { intros F [f|] p v; cbn; [|discriminate]. intros [= <-]. eauto. }
  assert (Hforward : forall F (endpoint_of : PointsResponse -> Config -> string)
                       (decode : Body_ -> ptr (WithPoint F) * option error)
                       (p : PointsResponse) (s1 s' : State) (res : Response)
                       (f0 : WithPoint F),
             Points lat lon s = (Return (Some p, None), s1) ->
             apiCall (endpoint_of p (config s1)) s1 = (Return (Some res, None), s') ->
             decode (Body res) = (Some f0, None) ->
             exists f : WithPoint F,
               via_point endpoint_of decode attach_point lat lon s
               = (Return (Some f, None), s')
               /\ Point f = Some p).
  { intros F endpoint_of decode p s1 s' res f0 Hpoint Hfetch Hdec.
    exists (set_Point f0 (Some p)). split; [|reflexivity].
    eapply via_point_forward; eauto. }
  split; [|split; [|split; [|split; [|split; [|split; [|split]]]]]];
    try (intros p s1 s' res f0 Hpoint Hfetch Hdec);
    try (intros s' v Hcall).
  - rewrite Forecast_eq in Hcall.
    apply via_point_success in Hcall as (p & s1 & res & w & Hp & _ & _ & Hfin).
    apply Hattach in Hfin as (f & -> & Hf). eauto 6.
  - rewrite HourlyForecast_eq in Hcall.
    apply via_point_success in Hcall as (p & s1 & res & w & Hp & _ & _ & Hfin).
    apply Hattach in Hfin as (f & -> & Hf). eauto 6.
  - rewrite GridpointForecast_eq in Hcall.
    apply via_point_success in Hcall as (p & s1 & res & w & Hp & _ & _ & Hfin).
    apply Hattach in Hfin as (f & -> & Hf). eauto 6.
  - rewrite Stations_eq in Hcall.
    apply via_point_success in Hcall as (p & s1 & res & w & Hp & Hfetch & Hdec & Hfin).
    injection Hfin as ->. eauto 6.
  - rewrite Forecast_eq. eapply Hforward; eauto.
  - rewrite HourlyForecast_eq. eapply Hforward; eauto.
  - rewrite GridpointForecast_eq. eapply Hforward; eauto.
  - rewrite Stations_eq. eapply via_point_forward; eauto.
Qed.

Lemma forecasts_carry_the_point_witness :
  let W := fake (always "{}") in
  let s := initial default_config in
  let s1 := snd (@Points W "39.7456" "-97.0892" s) in
  (exists f : @ForecastResponse W,
      @Forecast W "39.7456" "-97.0892" s
      = (Return (Some f, None), snd (@apiCall W (EndpointForecast sample_point) s1))
      /\ Point f = Some sample_point)
  /\ (exists f : @HourlyForecastResponse W,
        @HourlyForecast W "39.7456" "-97.0892" s
        = (Return (Some f, None), snd (@apiCall W (EndpointForecastHourly sample_point) s1))
        /\ Point f = Some sample_point)
  /\ (exists f : @GridpointForecastResponse W,
        @GridpointForecast W "39.7456" "-97.0892" s
        = (Return (Some f, None),
           snd (@apiCall W (EndpointForecastGridData sample_point) s1))
        /\ Point f = Some sample_point)
  /\ @Stations W "39.7456" "-97.0892" s
     = (Return (Some {| Stations_ := [] |}, None),
        snd (@apiCall W (EndpointObservationStations sample_point) s1)).
Proof.
  cbv zeta.
  destruct (@forecasts_carry_the_point (fake (always "{}")) "39.7456" "-97.0892"
              (initial default_config))
    as (_ & _ & _ & _ & Hforecast & Hhourly & Hgridpoint & Hstations).
  split; [|split; [|split]].
  - apply (Hforecast sample_point
             (snd (@Points (fake (always "{}")) "39.7456" "-97.0892" (initial default_config)))
             _ (ok "{}") {| wire := "{}"; Point := None |});
      vm_compute; reflexivity.
  - apply (Hhourly sample_point
             (snd (@Points (fake (always "{}")) "39.7456" "-97.0892" (initial default_config)))
             _ (ok "{}") {| wire := "{}"; Point := None |});
      vm_compute; reflexivity.
  - apply (Hgridpoint sample_point
             (snd (@Points (fake (always "{}")) "39.7456" "-97.0892" (initial default_config)))
             _ (ok "{}") {| wire := "{}"; Point := None |});
      vm_compute; reflexivity.
  - apply (Hstations sample_point
             (snd (@Points (fake (always "{}")) "39.7456" "-97.0892" (initial default_config)))
             _ (ok "{}") (Some {| Stations_ := [] |}));
      vm_compute; reflexivity.
Defined.

(** ** Alerts *)

(** [json.Unmarshal] into the wrapper, on a few texts: a key is matched
    whatever its case, [null] and a missing key leave the slice empty, a
    value of the wrong kind and a text that is not well formed are errors. *)
Example Unmarshal_graph :
  Unmarshal graph_body {| Data := [] |} = ({| Data := [flood_warning] |}, None).
Proof. vm_compute. reflexivity. Qed.

Example Unmarshal_folded_keys :
  Unmarshal (dq "{ '@GRAPH' : [ {'@Id':'a1', 'EVENT':'Flood Warning', 'other':[1,2.5e3]} ] }")
    {| Data := [] |}
  = ({| Data := [flood_warning] |}, None).
Proof. vm_compute. reflexivity. Qed.

Example Unmarshal_no_graph :
  Unmarshal "{}" {| Data := [] |} = ({| Data := [] |}, None)
  /\ Unmarshal (dq "{'@graph':null}") {| Data := [] |} = ({| Data := [] |}, None)
  /\ Unmarshal "null" {| Data := [] |} = ({| Data := [] |}, None).
Proof. repeat split; vm_compute; reflexivity. Qed.

Example Unmarshal_errors :
  snd (Unmarshal (dq "{'@graph':{}}") {| Data := [] |})
  = Some (Json (json.UnmarshalTypeError "object" "[]noaa.Alert"))
  /\ snd (Unmarshal (dq "{'@graph':[{'event':404}]}") {| Data := [] |})
     = Some (Json (json.UnmarshalTypeError "number" "string"))
  /\ snd (Unmarshal "[]" {| Data := [] |})
     = Some (Json (json.UnmarshalTypeError "array" "noaa.Response"))
  /\ snd (Unmarshal cut_body {| Data := [] |}) = Some (Json json.SyntaxError)
  /\ snd (Unmarshal "{} {}" {| Data := [] |}) = Some (Json json.SyntaxError)
  /\ snd (Unmarshal "" {| Data := [] |}) = Some (Json json.SyntaxError).
Proof. repeat split; vm_compute; reflexivity. Qed.

Section AlertsFacts.

Context `{Collaborators}.

(** [Alerts], step by step: the fetch, then the two steps of decoding. *)
Lemma Alerts_eq (lat long : string) (s : State) :
  fst (Alerts lat long s) =
  match fst (apiCall (alerts_endpoint (config s) lat long) s) with
  | Return (_, Some err) => Return ([], Some err)
  | Return (None, None) => Panic
  | Return (Some res, None) => Return (decode_alerts (Body res))
  | Panic => Panic
  end.
Proof.
  unfold Alerts, alerts_endpoint, decode_alerts, bind, get, deref, Println. cbn.
  destruct (apiCall _ s) as [[[[res|] [err|]]|] s1]; cbn; try reflexivity.
  destruct (read_error (Body res)); cbn; [reflexivity|].
  destruct (Unmarshal _ _) as [r [err|]]; reflexivity.
Qed.

(** A body that is read to its end and holds the text [bytes]. *)
Lemma decode_alerts_data (b : Body_) (bytes : string) :
  b = {| data := bytes; read_error := None |} ->
  decode_alerts b
  = match Unmarshal bytes {| Data := [] |} with
    | (_, Some err) => ([], Some err)
    | (r, None) => (Data r, None)
    end.
Proof. intros ->. reflexivity. Qed.

Lemma decode_alerts_error (b : Body_) (r : list Alert) (e : error) :
  decode_alerts b = (r, Some e) -> r = [].
Proof.
  unfold decode_alerts. destruct (ReadAll b) as [bytes [err|]].
  - intros [= <- _]. reflexivity.
  - destruct (Unmarshal bytes _) as [r' [err|]]; intros [= <- _]; reflexivity.
Qed.

(** A response with status 200 is what [apiCall] returns. *)
Lemma apiCall_200 (endpoint : string) (s : State) (res : Response) :
  http_NewRequest (strings.Replace endpoint "http://" "https://") = None ->
  http_Do (requests s)
    (request_for (config s) (strings.Replace endpoint "http://" "https://")) = inl res ->
  StatusCode res = 200%Z ->
  fst (apiCall endpoint s) = Return (Some res, None).
Proof.
  intros Hnew Hdo Hcode. rewrite apiCall_eq. cbv zeta.
  rewrite Hnew, Hdo, Hcode. reflexivity.
Qed.

(** A failing call returns the empty collection, and its error is the
    one of the step that failed. *)
Lemma Alerts_error (lat long : string) (s : State) (r : list Alert) (e : error) :
  fst (Alerts lat long s) = Return (r, Some e) ->
  r = [] /\ fetch_or_decode (alerts_endpoint (config s) lat long) decode_alerts s e.
Proof.
  rewrite Alerts_eq. unfold fetch_or_decode.
  destruct (apiCall_cases (alerts_endpoint (config s) lat long) s) as [[res Hr]|[err Hr]];
    rewrite Hr.
  - destruct (decode_alerts (Body res)) as [r' err] eqn:Hd. intros [= -> ->].
    split; [eapply decode_alerts_error; exact Hd|].
    right. exists res. rewrite Hd. auto.
  - intros [= <- <-]. auto.
Qed.

End AlertsFacts.

(** C8.  [Alerts] decodes the body of the response in two steps, all its
    bytes read and then unmarshalled into the wrapper whose [@graph] field
    holds the alerts.  When the response has status 200 and the body
    [{"@graph":[{"@id":"a1","event":"Flood Warning"}]}], the result is the
    one alert with ID [a1] and no error; with the body [{}] it is the empty
    collection and no error; and when the fetch or either step of the
    decoding fails, the error is returned together with the empty
    collection. *)
Theorem Alerts_two_step_decode `{Collaborators} (lat long : string) (s : State) :
  (forall res : Response,
      fst (apiCall (alerts_endpoint (config s) lat long) s) = Return (Some res, None) ->
      fst (Alerts lat long s) = Return (decode_alerts (Body res)))
  /\ (forall res : Response,
        http_NewRequest (https (alerts_endpoint (config s) lat long)) = None ->
        http_Do (requests s)
          (request_for (config s) (https (alerts_endpoint (config s) lat long))) = inl res ->
        StatusCode res = 200%Z ->
        (Body res
         = {| data := graph_body;
              read_error := None |} ->
         fst (Alerts lat long s) = Return ([flood_warning], None)
         /\ map Alert_ID [flood_warning] = ["a1"])
        /\ (Body res = {| data := "{}"; read_error := None |} ->
            fst (Alerts lat long s) = Return ([], None)))
  /\ (forall e : error,
        fetch_or_decode (alerts_endpoint (config s) lat long) decode_alerts s e ->
        fst (Alerts lat long s) = Return ([], Some e))
  /\ (forall (r : list Alert) (e : error),
        fst (Alerts lat long s) = Return (r, Some e) ->
        r = [] /\ fetch_or_decode (alerts_endpoint (config s) lat long) decode_alerts s e).
Proof.
  split; [|split; [|split]].
  - intros res Hfetch. rewrite Alerts_eq, Hfetch. reflexivity.
  - intros res Hnew Hdo Hcode.
    pose proof (apiCall_200 _ _ _ Hnew Hdo Hcode) as Hfetch.
    split; intros Hbody; rewrite Alerts_eq, Hfetch, (decode_alerts_data _ _ Hbody).
    + split; [vm_compute; reflexivity | reflexivity].
    + vm_compute. reflexivity.
  - intros e [Hfetch | (res & Hfetch & Hdec)]; rewrite Alerts_eq, Hfetch; [reflexivity|].
    destruct (decode_alerts (Body res)) as [r err] eqn:Hd. cbn [snd] in Hdec. subst err.
    rewrite (decode_alerts_error _ _ _ Hd). reflexivity.
  - intros r e. apply Alerts_error.
Qed.

Lemma Alerts_two_step_decode_witness :
  fst (@Alerts (fake (always graph_body))
         "39.7456" "-97.0892" (initial default_config))
  = Return ([flood_warning], None)
  /\ fst (@Alerts (fake (always "{}")) "39.7456" "-97.0892" (initial default_config))
     = Return ([], None)
  /\ fst (@Alerts (fake (always cut_body)) "39.7456" "-97.0892"
            (initial default_config))
     = Return ([], Some (Json json.SyntaxError)).
Proof.
  split; [|split].
  - refine (proj1 (proj1 (proj1 (proj2
      (@Alerts_two_step_decode
         (fake (always graph_body))
         "39.7456" "-97.0892" (initial default_config)))
      (ok graph_body) _ _ _) _));
      reflexivity.
  - refine (proj2 (proj1 (proj2
      (@Alerts_two_step_decode (fake (always "{}"))
         "39.7456" "-97.0892" (initial default_config)))
      (ok "{}") _ _ _) _); reflexivity.
  - refine (proj1 (proj2 (proj2
      (@Alerts_two_step_decode (fake (always cut_body))
         "39.7456" "-97.0892" (initial default_config)))) _ _).
    right. exists (ok cut_body). split; vm_compute; reflexivity.
Defined.

(** ** Errors *)

Section ErrorFacts.

Context `{Collaborators}.

(** The error [apiCall] returns is the one of [http.NewRequest], the one
    of the transport, or the one made from the status of the response. *)
Lemma apiCall_error (endpoint : string) (s : State) (r : ptr Response) (e : error) :
  fst (apiCall endpoint s) = Return (r, Some e) ->
  http_NewRequest (https endpoint) = Some e
  \/ http_Do (requests s) (request_for (config s) (https endpoint)) = inr e
  \/ exists res : Response,
       http_Do (requests s) (request_for (config s) (https endpoint)) = inl res
       /\ StatusCode res <> 200%Z
       /\ e = ErrorsNew (Sprintf_d_s (StatusCode res) (Status res)).
Proof.
  rewrite apiCall_eq. cbv zeta.
  destruct (http_NewRequest _) as [e0|]; cbn [fst]; [intros [= _ ->]; auto|].
  destruct (http_Do _ _) as [res|e0]; [|intros [= _ ->]; auto].
  destruct (Z.eqb_spec (StatusCode res) 200) as [_|Hne]; [discriminate|].
  intros [= _ <-]. right. right. exists res. auto.
Qed.

Lemma Office_error (id : string) (s : State) (v : ptr OfficeResponse) (e : error) :
  fst (Office id s) = Return (v, Some e) ->
  fetch_or_decode (BaseURL (config s) +:+ "/offices/" +:+ id) Decode_OfficeResponse s e.
Proof.
  unfold Office, fetch_or_decode, bind, get, deref. cbn.
  destruct (apiCall_cases (BaseURL (config s) +:+ "/offices/" +:+ id) s)
    as [[res Hr]|[err Hr]];
    destruct (apiCall _ s) as [r s1]; cbn [fst] in Hr; subst r; cbn.
  - destruct (Decode_OfficeResponse _) as [office [err|]] eqn:Hdec; cbn; [|discriminate].
    intros [= _ ->]. right. exists res. rewrite Hdec. auto.
  - intros [= _ ->]. auto.
Qed.

(** [LatestStationObservation] returns the decoder's error as it is, and
    in place of an error of the fetch a new one, made from a fixed text
    and the text of that error. *)
Lemma LatestStationObservation_error (stationID : string) (s : State)
    (v : Observation) (e : error) :
  fst (LatestStationObservation stationID s) = Return (v, Some e) ->
  (exists e0 : error,
      fst (apiCall (stationID +:+ "/observations/latest") s) = Return (None, Some e0)
      /\ e = ErrorsNew ("failed to get latest observations: " +:+ Error e0))
  \/ (exists res : Response,
        fst (apiCall (stationID +:+ "/observations/latest") s) = Return (Some res, None)
        /\ snd (Decode_Observation (Body res)) = Some e).
Proof.
  unfold LatestStationObservation, bind, deref.
  destruct (apiCall_cases (stationID +:+ "/observations/latest") s)
    as [[res Hr]|[err Hr]];
    destruct (apiCall _ s) as [r s1]; cbn [fst] in Hr; subst r; cbn.
  - destruct (Decode_Observation _) as [observation [err|]] eqn:Hdec; cbn; [|discriminate].
    intros [= _ ->]. right. exists res. rewrite Hdec. auto.
  - intros [= _ <-]. left. exists err. auto.
Qed.

Lemma err_of_error {A} (r : outcome (A * option error) * State) (e : error) :
  fst (err_of r) = Return (Some e) -> exists v, fst r = Return (v, Some e).
Proof.
  destruct r as [[[v err]|] s1]; cbn; [|discriminate]. intros [= ->]. eauto.
Qed.

(** The other way round: a step that fails makes the operation return. *)

Lemma apiCall_refused (endpoint : string) (s : State) (e : error) :
  http_NewRequest (https endpoint) = Some e ->
  fst (apiCall endpoint s) = Return (None, Some e).
Proof. intros Hnew. rewrite apiCall_eq. cbv zeta. rewrite Hnew. reflexivity. Qed.

Lemma apiCall_transport_fails (endpoint : string) (s : State) (e : error) :
  http_NewRequest (https endpoint) = None ->
  http_Do (requests s) (request_for (config s) (https endpoint)) = inr e ->
  fst (apiCall endpoint s) = Return (None, Some e).
Proof. intros Hnew Hdo. rewrite apiCall_eq. cbv zeta. rewrite Hnew, Hdo. reflexivity. Qed.

Lemma apiCall_status_fails (endpoint : string) (s : State) (res : Response) :
  http_NewRequest (https endpoint) = None ->
  http_Do (requests s) (request_for (config s) (https endpoint)) = inl res ->
  StatusCode res <> 200%Z ->
  fst (apiCall endpoint s)
  = Return (None, Some (ErrorsNew (Sprintf_d_s (StatusCode res) (Status res)))).
Proof.
  intros Hnew Hdo Hcode. rewrite apiCall_eq. cbv zeta. rewrite Hnew, Hdo. cbn [fst].
  destruct (Z.eqb_spec (StatusCode res) 200) as [Heq|_]; [contradiction | reflexivity].
Qed.

Lemma Office_failing_step (id : string) (s : State) (e : error) :
  fetch_or_decode (BaseURL (config s) +:+ "/offices/" +:+ id) Decode_OfficeResponse s e ->
  fst (Office id s) = Return (None, Some e).
Proof.
  unfold Office, fetch_or_decode, bind, get, deref. cbn.
  destruct (apiCall _ s) as [r s1]. cbn [fst].
  intros [-> | (res & -> & Hdec)]; cbn; [reflexivity|].
  destruct (Decode_OfficeResponse _) as [office err]. cbn [snd] in Hdec. subst err.
  reflexivity.
Qed.

Lemma LatestStationObservation_fetch_fails (stationID : string) (s : State) (e0 : error) :
  fst (apiCall (stationID +:+ "/observations/latest") s) = Return (None, Some e0) ->
  fst (LatestStationObservation stationID s)
  = Return (Observation_zero,
            Some (ErrorsNew ("failed to get latest observations: " +:+ Error e0))).
Proof.
  unfold LatestStationObservation, bind, deref.
  destruct (apiCall _ s) as [r s1]. cbn [fst]. intros ->. reflexivity.
Qed.

Lemma LatestStationObservation_decode_fails (stationID : string) (s : State)
    (res : Response) (e : error) :
  fst (apiCall (stationID +:+ "/observations/latest") s) = Return (Some res, None) ->
  snd (Decode_Observation (Body res)) = Some e ->
  fst (LatestStationObservation stationID s) = Return (Observation_zero, Some e).
Proof.
  unfold LatestStationObservation, bind, deref.
  destruct (apiCall _ s) as [r s1]. cbn [fst]. intros -> Hdec. cbn.
  destruct (Decode_Observation _) as [observation err]. cbn [snd] in Hdec. subst err.
  reflexivity.
Qed.

Lemma Alerts_failing_step (lat long : string) (s : State) (e : error) :
  fetch_or_decode (alerts_endpoint (config s) lat long) decode_alerts s e ->
  fst (Alerts lat long s) = Return ([], Some e).
Proof.
  intros [Hfetch | (res & Hfetch & Hdec)]; rewrite Alerts_eq, Hfetch; [reflexivity|].
  destruct (decode_alerts (Body res)) as [r err] eqn:Hd. cbn [snd] in Hdec. subst err.
  rewrite (decode_alerts_error _ _ _ Hd). reflexivity.
Qed.

Lemma via_point_failing_step {T} (endpoint_of : PointsResponse -> Config -> string)
    (decode : Body_ -> ptr T * option error)
    (finish : ptr T -> PointsResponse -> outcome (ptr T))
    (lat lon : string) (s : State) (e : error) :
  point_step_fails endpoint_of decode lat lon s e ->
  fst (via_point endpoint_of decode finish lat lon s) = Return (None, Some e).
Proof.
  unfold via_point. intros [(Hmiss & Hfail) | (p & s1 & Hpoint & Hfail)].
  - destruct (Points_failing_step lat lon s e Hmiss Hfail) as [Hret _].
    destruct (Points lat lon s) as [r s1]. cbn [fst] in Hret. subst r. reflexivity.
  - rewrite Hpoint. unfold fetch_or_decode in Hfail.
    destruct (apiCall _ s1) as [r s2]. cbn [fst] in Hfail.
    destruct Hfail as [-> | (res & -> & Hdec)]; [reflexivity|].
    destruct (decode _) as [v err]. cbn [snd] in Hdec. subst err. reflexivity.
Qed.

Lemma err_of_returns {A} (r : outcome (A * option error) * State) (v : A) (e : error) :
  fst r = Return (v, Some e) -> fst (err_of r) = Return (Some e).
Proof. destruct r as [[[v' err]|] s1]; cbn; [|discriminate]. intros [= _ ->]. reflexivity. Qed.

End ErrorFacts.

(** C9, as amended.  The error a failing call of an operation returns is
    the error of the step that failed, as that step returned it: the error
    of the fetch ([apiCall]) or of the decoding that follows it, for
    [Stations] and the forecasts possibly those of the point resolution
    before; and the error of [apiCall] is the one of [http.NewRequest], the
    one of the transport, or the one it makes from the status of a response
    that is not 200.  The exception is an error of the fetch in
    [LatestStationObservation], in whose place the operation returns a new
    error: a fixed text followed by the text of the fetch's error.
    And no error is dropped: when a step of an operation fails, the
    operation returns that step's error (in the one exception, the new
    error made from it), and when [http.NewRequest] or the transport fails,
    or the status is not 200, [apiCall] returns the error. *)
Theorem errors_returned_as_the_failed_step_made_them `{Collaborators} (c : Call)
    (s : State) (e : error) :
  (fst (run c s) = Return (Some e) ->
   failed_step c s e
   \/ exists (stationID : string) (e0 : error),
        c = CallLatestStationObservation stationID
        /\ fst (apiCall (stationID +:+ "/observations/latest") s) = Return (None, Some e0)
        /\ e = ErrorsNew ("failed to get latest observations: " +:+ Error e0))
  /\ (forall (endpoint : string) (s0 : State) (r : ptr Response) (e0 : error),
        fst (apiCall endpoint s0) = Return (r, Some e0) ->
        http_NewRequest (https endpoint) = Some e0
        \/ http_Do (requests s0) (request_for (config s0) (https endpoint)) = inr e0
        \/ exists res : Response,
             http_Do (requests s0) (request_for (config s0) (https endpoint)) = inl res
             /\ StatusCode res <> 200%Z
             /\ e0 = ErrorsNew (Sprintf_d_s (StatusCode res) (Status res)))
  /\ (step_fails c s e ->
      (forall stationID : string,
          c = CallLatestStationObservation stationID ->
          fst (apiCall (stationID +:+ "/observations/latest") s) <> Return (None, Some e)) ->
      fst (run c s) = Return (Some e))
  /\ (forall stationID : string,
        c = CallLatestStationObservation stationID ->
        fst (apiCall (stationID +:+ "/observations/latest") s) = Return (None, Some e) ->
        fst (run c s)
        = Return (Some (ErrorsNew ("failed to get latest observations: " +:+ Error e))))
  /\ (forall (endpoint : string) (s0 : State) (e0 : error),
        http_NewRequest (https endpoint) = Some e0
        \/ (http_NewRequest (https endpoint) = None
            /\ http_Do (requests s0) (request_for (config s0) (https endpoint)) = inr e0)
        \/ (exists res : Response,
               http_NewRequest (https endpoint) = None
               /\ http_Do (requests s0) (request_for (config s0) (https endpoint)) = inl res
               /\ StatusCode res <> 200%Z
               /\ e0 = ErrorsNew (Sprintf_d_s (StatusCode res) (Status res))) ->
        fst (apiCall endpoint s0) = Return (None, Some e0)).
Proof.
  split; [|split; [intros endpoint s0 r e0; apply apiCall_error|split; [|split]]].
  - intros Hfail.
    destruct c; cbn [run failed_step] in *; apply err_of_error in Hfail as [v Hfail].
    + left. eapply Points_error. exact Hfail.
    + left. eapply Office_error. exact Hfail.
    + left. rewrite Stations_eq in Hfail. eapply via_point_error. exact Hfail.
    + left. rewrite Forecast_eq in Hfail. eapply via_point_error. exact Hfail.
    + left. rewrite GridpointForecast_eq in Hfail. eapply via_point_error. exact Hfail.
    + left. rewrite HourlyForecast_eq in Hfail. eapply via_point_error. exact Hfail.
    + apply LatestStationObservation_error in Hfail as [(e0 & Hfetch & ->) | Hdec].
      * right. exists stationID, e0. auto.
      * left. right. exact Hdec.
    + left. eapply Alerts_error. exact Hfail.
  - intros Hstep Hplain. destruct c; cbn [run step_fails] in *.
    + destruct Hstep as [Hmiss Hstep]. eapply err_of_returns.
      apply (Points_failing_step lat lon s e Hmiss Hstep).
    + eapply err_of_returns. apply Office_failing_step. exact Hstep.
    + rewrite Stations_eq. eapply err_of_returns, via_point_failing_step. exact Hstep.
    + rewrite Forecast_eq. eapply err_of_returns, via_point_failing_step. exact Hstep.
    + rewrite GridpointForecast_eq. eapply err_of_returns, via_point_failing_step.
      exact Hstep.
    + rewrite HourlyForecast_eq. eapply err_of_returns, via_point_failing_step. exact Hstep.
    + destruct Hstep as [Hfetch | (res & Hfetch & Hdec)].
      * destruct (Hplain stationID eq_refl Hfetch).
      * eapply err_of_returns, LatestStationObservation_decode_fails; eassumption.
    + eapply err_of_returns. apply Alerts_failing_step. exact Hstep.
  - intros stationID -> Hfetch. cbn [run]. eapply err_of_returns.
    apply LatestStationObservation_fetch_fails. exact Hfetch.
  - intros endpoint s0 e0 [Hnew | [(Hnew & Hdo) | (res & Hnew & Hdo & Hcode & ->)]].
    + apply apiCall_refused. exact Hnew.
    + apply apiCall_transport_fails; assumption.
    + apply apiCall_status_fails; assumption.
Qed.

Lemma errors_returned_as_the_failed_step_made_them_witness :
  fst (@run (fake (status 503 "503 Service Unavailable")) (CallOffice "TOP")
         (initial default_config))
  = Return (Some (ErrorsNew "503 503 Service Unavailable"))
  /\ fst (@run (fake (first_then "{}" "oops")) (CallHourlyForecast "39.7456" "-97.0892")
            (initial default_config))
     = Return (Some (Foreign "invalid character"))
  /\ fst (@run (fake (broken "{}"))
            (CallLatestStationObservation "https://api.weather.gov/stations/KTOP")
            (initial default_config))
     = Return (Some (Foreign "unexpected EOF"))
  /\ fst (@run (fake unreachable)
            (CallLatestStationObservation "https://api.weather.gov/stations/KTOP")
            (initial default_config))
     = Return (Some (ErrorsNew
         "failed to get latest observations: dial tcp: connect: network is unreachable"))
  /\ (@failed_step (fake (status 503 "503 Service Unavailable")) (CallOffice "TOP")
        (initial default_config) (ErrorsNew "503 503 Service Unavailable")
      \/ exists (stationID : string) (e0 : error),
           CallOffice "TOP" = CallLatestStationObservation stationID
           /\ fst (@apiCall (fake (status 503 "503 Service Unavailable"))
                     (stationID +:+ "/observations/latest") (initial default_config))
              = Return (None, Some e0)
           /\ ErrorsNew "503 503 Service Unavailable"
              = ErrorsNew ("failed to get latest observations: "
                           +:+ @Error (fake (status 503 "503 Service Unavailable")) e0)).
Proof.
  split; [|split; [|split; [|split]]].
  - apply (proj1 (proj2 (proj2 (@errors_returned_as_the_failed_step_made_them
                                  (fake (status 503 "503 Service Unavailable"))
                                  (CallOffice "TOP") (initial default_config)
                                  (ErrorsNew "503 503 Service Unavailable"))))).
    + left. vm_compute. reflexivity.
    + intros stationID Hc. discriminate Hc.
  - apply (proj1 (proj2 (proj2 (@errors_returned_as_the_failed_step_made_them
                                  (fake (first_then "{}" "oops"))
                                  (CallHourlyForecast "39.7456" "-97.0892")
                                  (initial default_config)
                                  (Foreign "invalid character"))))).
    + right. exists sample_point,
        (snd (@Points (fake (first_then "{}" "oops")) "39.7456" "-97.0892"
                (initial default_config))).
      split; [vm_compute; reflexivity|].
      right. exists (ok "oops"). split; vm_compute; reflexivity.
    + intros stationID Hc. discriminate Hc.
  - apply (proj1 (proj2 (proj2 (@errors_returned_as_the_failed_step_made_them
                                  (fake (broken "{}"))
                                  (CallLatestStationObservation
                                     "https://api.weather.gov/stations/KTOP")
                                  (initial default_config)
                                  (Foreign "unexpected EOF"))))).
    + right.
      exists {| StatusCode := 200; Status := "200 OK";
                Body := {| data := "{}"; read_error := Some (Foreign "unexpected EOF") |} |}.
      split; vm_compute; reflexivity.
    + intros stationID Hc Hfetch. injection Hc as <-. vm_compute in Hfetch.
      discriminate Hfetch.
  - apply (proj1 (proj2 (proj2 (proj2 (@errors_returned_as_the_failed_step_made_them
                                         (fake unreachable)
                                         (CallLatestStationObservation
                                            "https://api.weather.gov/stations/KTOP")
                                         (initial default_config)
                                         (Foreign
                                            "dial tcp: connect: network is unreachable")))))
             "https://api.weather.gov/stations/KTOP" eq_refl).
    vm_compute. reflexivity.
  - apply (proj1 (@errors_returned_as_the_failed_step_made_them
                    (fake (status 503 "503 Service Unavailable"))
                    (CallOffice "TOP") (initial default_config)
                    (ErrorsNew "503 503 Service Unavailable"))).
    vm_compute. reflexivity.
Defined.

(** C9, refuted as stated: when the transport fails,
    [LatestStationObservation] does not return the error of the fetch but
    another one, which no step of the call made. *)
Lemma LatestStationObservation_wraps_refuted :
  let W := fake unreachable in
  let s := initial default_config in
  let stationID := "https://api.weather.gov/stations/KTOP" in
  fst (@apiCall W (stationID +:+ "/observations/latest") s)
  = Return (None, Some (Foreign "dial tcp: connect: network is unreachable"))
  /\ fst (@run W (CallLatestStationObservation stationID) s)
     = Return (Some (ErrorsNew
         "failed to get latest observations: dial tcp: connect: network is unreachable"))
  /\ ~ @failed_step W (CallLatestStationObservation stationID) s
         (ErrorsNew
            "failed to get latest observations: dial tcp: connect: network is unreachable").
Proof.
  cbv zeta. split; [vm_compute; reflexivity|]. split; [vm_compute; reflexivity|].
  intros [Hfetch | (res & Hfetch & _)]; vm_compute in Hfetch; discriminate Hfetch.
Qed.

(** * Further properties of the operations *)

(** ** What the scheme rewriting leaves behind *)

(** A prefix that holds no [h] is a prefix of the rewritten text exactly
    when it is one of the text: the rewriting changes a text only where an
    [h] stands. *)
Lemma HasPrefix_replace_from (q s : string) :
  strings.Contains q "h" = false ->
  strings.HasPrefix (strings.replace_from "http://" "https://" 0 s) q
  = strings.HasPrefix s q.
Proof.
  revert s. induction q as [|x q IH]; intros s Hq; [reflexivity|].
  cbn [strings.Contains strings.HasPrefix] in Hq.
  apply orb_false_elim in Hq as [Hx Hq]. rewrite andb_true_r in Hx.
  destruct s as [|c s]; [reflexivity|].
  cbn [strings.replace_from].
  destruct (strings.HasPrefix (String c s) "http://") eqn:Hp.
  - cbn [strings.HasPrefix] in Hp. apply andb_prop in Hp as [Hc _].
    apply Ascii.eqb_eq in Hc. subst c.
    cbv [String.append]. cbn [strings.HasPrefix].
    rewrite (Ascii.eqb_sym "h" x), Hx. reflexivity.
  - cbn [strings.HasPrefix]. rewrite IH by exact Hq. reflexivity.
Qed.

Lemma HasPrefix_cons (c p : ascii) (s q : string) :
  strings.HasPrefix (String c s) (String p q) = Ascii.eqb c p && strings.HasPrefix s q.
Proof. reflexivity. Qed.

Lemma replace_from_clean (s : string) (k : nat) :
  strings.Contains (strings.replace_from "http://" "https://" k s) "http://" = false.
Proof.
  revert k. induction s as [|c s IH]; intros k; [reflexivity|].
  destruct k as [|k]; cbn [strings.replace_from]; [|apply IH].
  destruct (strings.HasPrefix (String c s) "http://") eqn:Hp.
  - cbv [String.append]. simpl. apply IH.
  - cbn [strings.Contains]. rewrite IH, orb_false_r.
    change "http://" with (String "h" "ttp://") in Hp |- * at 2.
    rewrite HasPrefix_cons in *.
    rewrite (HasPrefix_replace_from "ttp://" s) by reflexivity. exact Hp.
Qed.

Lemma https_clean (url : string) : strings.Contains (https url) "http://" = false.
Proof. apply replace_from_clean. Qed.

Lemma https_idempotent (url : string) : https (https url) = https url.
Proof. apply Replace_absent, https_clean. Qed.

(** X1.  The scheme rewriting of [apiCall] is complete for the spelling
    [http://] and blind to any other: the string [apiCall] hands to
    [http.NewRequest] holds no [http://], whatever the endpoint, and
    rewriting twice is rewriting once, so that an endpoint already
    rewritten is handed over as the endpoint itself is; but an endpoint
    that spells the scheme [HTTP://] (and holds no [http://]) is handed
    over as it is, its scheme not rewritten. *)
Theorem apiCall_rewrites_the_lower_case_scheme_only `{Collaborators} (endpoint : string)
    (s : State) :
  Forall (fun req => strings.Contains (URL req) "http://" = false)
    (outbound (apiCall endpoint) s)
  /\ https (https endpoint) = https endpoint
  /\ outbound (apiCall (https endpoint)) s = outbound (apiCall endpoint) s
  /\ (strings.Contains endpoint "http://" = false ->
      outbound (apiCall ("HTTP://" +:+ endpoint)) s
      = get_of (config s) ("HTTP://" +:+ endpoint)).
Proof.
  rewrite !outbound_apiCall, https_idempotent. repeat split.
  - unfold get_of. destruct (http_NewRequest _); constructor; [apply https_clean | constructor].
  - intros Hrest. rewrite Replace_absent; [reflexivity|].
    cbv [String.append]. cbn. exact Hrest.
Qed.

Lemma apiCall_rewrites_the_lower_case_scheme_only_witness :
  @outbound _ (@apiCall (fake (always "{}")) ("HTTP://" +:+ "api.weather.gov/points/0,0"))
    (initial default_config)
  = [request_for default_config ("HTTP://" +:+ "api.weather.gov/points/0,0")].
Proof.
  apply (proj2 (proj2 (proj2 (@apiCall_rewrites_the_lower_case_scheme_only
                                (fake (always "{}")) "api.weather.gov/points/0,0"
                                (initial default_config))))).
  vm_compute. reflexivity.
Defined.

(** ** What every operation leaves alone *)

Section Steps.

Context `{Collaborators}.

Variable R : State -> State -> Prop.
Hypothesis R_refl : forall s, R s s.
Hypothesis R_trans : forall s1 s2 s3, R s1 s2 -> R s2 s3 -> R s1 s3.
Hypothesis R_apiCall : forall endpoint s, R s (snd (apiCall endpoint s)).
Hypothesis R_store : forall s endpoint points, R s (store_point s endpoint points).
Hypothesis R_Println : forall s text err, R s (snd (Println text err s)).

Lemma respects_ret {A} (a : A) : respects R (ret a).
Proof. intros s. apply R_refl. Qed.

Lemma respects_bind {A B} (m : M A) (k : A -> M B) :
  respects R m -> (forall a, respects R (k a)) -> respects R (bind m k).
Proof.
  intros Hm Hk s. unfold bind. specialize (Hm s).
  destruct (m s) as [[a|] s1]; cbn [snd] in Hm; [|exact Hm].
  eapply R_trans; [exact Hm | apply Hk].
Qed.

Lemma respects_get {A} (f : State -> A) : respects R (get f).
Proof. intros s. apply R_refl. Qed.

Lemma respects_deref {A} (p : ptr A) : respects R (deref p).
Proof. intros s. destruct p; apply R_refl. Qed.

Lemma respects_apiCall (endpoint : string) : respects R (apiCall endpoint).
Proof. intros s. apply R_apiCall. Qed.

Lemma respects_cache_store (endpoint : string) (points : ptr PointsResponse) :
  respects R (cache_store endpoint points).
Proof. intros s. apply R_store. Qed.

Lemma respects_Println (text : string) (err : error) : respects R (Println text err).
Proof. intros s. apply R_Println. Qed.

(** The operations are put together from these steps and nothing else. *)
Ltac respects_step :=
  first
    [ apply respects_ret
    | apply respects_apiCall
    | apply respects_get
    | apply respects_deref
    | apply respects_cache_store
    | apply respects_Println
    | apply respects_bind; [|intros ?]
    | match goal with
      | |- respects _ (match ?x with _ => _ end) => destruct x
      end ].

Lemma respects_Points (lat lon : string) : respects R (Points lat lon).
Proof. unfold Points. repeat respects_step. Qed.

Lemma respects_Office (id : string) : respects R (Office id).
Proof. unfold Office. repeat respects_step. Qed.

Lemma respects_LatestStationObservation (stationID : string) :
  respects R (LatestStationObservation stationID).
Proof. unfold LatestStationObservation. repeat respects_step. Qed.

Lemma respects_Stations (lat lon : string) : respects R (Stations lat lon).
Proof.
  unfold Stations. apply respects_bind; [apply respects_Points|intros ?].
  repeat respects_step.
Qed.

Lemma respects_Forecast (lat lon : string) : respects R (Forecast lat lon).
Proof.
  unfold Forecast. apply respects_bind; [apply respects_Points|intros ?].
  repeat respects_step.
Qed.

Lemma respects_GridpointForecast (lat long : string) :
  respects R (GridpointForecast lat long).
Proof.
  unfold GridpointForecast. apply respects_bind; [apply respects_Points|intros ?].
  repeat respects_step.
Qed.

Lemma respects_HourlyForecast (lat long : string) : respects R (HourlyForecast lat long).
Proof.
  unfold HourlyForecast. apply respects_bind; [apply respects_Points|intros ?].
  repeat respects_step.
Qed.

Lemma respects_Alerts (lat long : string) : respects R (Alerts lat long).
Proof. unfold Alerts. repeat respects_step. Qed.

Lemma respects_err_of {A} (m : M (A * option error)) (s : State) :
  respects R m -> R s (snd (err_of (m s))).
Proof. intros Hm. specialize (Hm s). destruct (m s) as [[[v e]|] s1]; exact Hm. Qed.

Lemma respects_run_but_Alerts (c : Call) (s : State) :
  is_Alerts c = false -> R s (snd (run c s)).
Proof.
  intros Hc. destruct c; try discriminate Hc; cbn [run]; apply respects_err_of.
  - apply respects_Points.
  - apply respects_Office.
  - apply respects_Stations.
  - apply respects_Forecast.
  - apply respects_GridpointForecast.
  - apply respects_HourlyForecast.
  - apply respects_LatestStationObservation.
Qed.

Lemma respects_run (c : Call) (s : State) : R s (snd (run c s)).
Proof.
  destruct (is_Alerts c) eqn:Hc; [|apply respects_run_but_Alerts; exact Hc].
  destruct c; try discriminate Hc. cbn [run]. apply respects_err_of, respects_Alerts.
Qed.

Lemma respects_run_all (cs : list Call) (s : State) : R s (run_all cs s).
Proof.
  revert s. induction cs as [|c cs IH]; intros s; cbn [run_all]; [apply R_refl|].
  eapply R_trans; [apply respects_run | apply IH].
Qed.

End Steps.

Section Requests.

Context `{Collaborators}.

Lemma sends_only_refl (Q : Config -> Request -> Prop) (s : State) : sends_only Q s s.
Proof. split; [reflexivity|]. exists []. rewrite app_nil_r. auto. Qed.

Lemma sends_only_trans (Q : Config -> Request -> Prop) (s1 s2 s3 : State) :
  sends_only Q s1 s2 -> sends_only Q s2 s3 -> sends_only Q s1 s3.
Proof.
  intros (Hc1 & l1 & Hr1 & Hq1) (Hc2 & l2 & Hr2 & Hq2). split; [congruence|].
  exists (l1 ++ l2)%list. rewrite Hr2, Hr1, app_assoc. split; [reflexivity|].
  apply Forall_app. rewrite Hc1 in Hq2. auto.
Qed.

Lemma configured_get_request_for (cfg : Config) (url : string) :
  configured_get cfg (request_for cfg url).
Proof. split; reflexivity. Qed.

Lemma sends_only_apiCall (endpoint : string) (s : State) :
  sends_only configured_get s (snd (apiCall endpoint s)).
Proof.
  destruct (apiCall_frame endpoint s) as (Hcfg & _ & _ & Hreq).
  split; [exact Hcfg|]. exists (outbound (apiCall endpoint) s). split; [exact Hreq|].
  rewrite outbound_apiCall. unfold get_of.
  destruct (http_NewRequest _); constructor; [apply configured_get_request_for | constructor].
Qed.

Lemma snd_err_of {A} (r : outcome (A * option error) * State) : snd (err_of r) = snd r.
Proof. destruct r as [[[v e]|] s1]; reflexivity. Qed.

(** The state the three operations that resolve no point end in is the one
    their fetch ends in, but for what [Alerts] prints. *)
Lemma Office_state (id : string) (s : State) :
  snd (Office id s) = snd (apiCall (BaseURL (config s) +:+ "/offices/" +:+ id) s).
Proof.
  unfold Office, bind, get, deref. cbn.
  destruct (apiCall _ s) as [[[[res|] [err|]]|] s1]; cbn; try reflexivity.
  destruct (Decode_OfficeResponse _) as [office [err|]]; reflexivity.
Qed.

Lemma LatestStationObservation_state (stationID : string) (s : State) :
  snd (LatestStationObservation stationID s)
  = snd (apiCall (stationID +:+ "/observations/latest") s).
Proof.
  unfold LatestStationObservation, bind, deref.
  destruct (apiCall _ s) as [[[[res|] [err|]]|] s1]; cbn; try reflexivity.
  destruct (Decode_Observation _) as [observation [err|]]; reflexivity.
Qed.

Lemma Alerts_state (lat long : string) (s : State) :
  let s1 := snd (apiCall (alerts_endpoint (config s) lat long) s) in
  snd (Alerts lat long s)
  = {| config := config s1; pointsCache := pointsCache s1; requests := requests s1;
       stdout := (stdout s1
                  ++ match fst (apiCall (alerts_endpoint (config s) lat long) s) with
                     | Return (Some res, None) => alerts_diagnostic (Body res)
                     | _ => []
                     end)%list |}.
Proof.
  cbv zeta. unfold Alerts, alerts_endpoint, alerts_diagnostic, bind, get, deref, Println. cbn.
  destruct (apiCall _ s) as [[[[res|] [err|]]|] s1]; cbn;
    try (rewrite app_nil_r; destruct s1; reflexivity).
  destruct (read_error (Body res)); cbn; [reflexivity|].
  destruct (Unmarshal _ _) as [r [err|]]; cbn; [reflexivity|].
  rewrite app_nil_r. destruct s1; reflexivity.
Qed.

Lemma apiCall_requests_length (endpoint : string) (s : State) :
  length (requests (snd (apiCall endpoint s))) <= length (requests s) + 1.
Proof.
  destruct (apiCall_frame endpoint s) as (_ & _ & _ & ->).
  rewrite outbound_apiCall, length_app. unfold get_of.
  destruct (http_NewRequest _); cbn; lia.
Qed.

Lemma Points_requests_length (lat lon : string) (s : State) :
  length (requests (snd (Points lat lon s))) <= length (requests s) + 1.
Proof.
  rewrite Points_eq. cbv zeta. destruct (map_index _ _); cbn [snd]; [lia|].
  pose proof (apiCall_requests_length (points_endpoint (config s) lat lon) s) as Hlen.
  destruct (apiCall _ s) as [[[[res|] [err|]]|] s1]; cbn [snd] in *; try exact Hlen.
  destruct (Decode_PointsResponse _) as [points [err|]]; exact Hlen.
Qed.

Lemma via_point_requests_length {T} (endpoint_of : PointsResponse -> Config -> string)
    (decode : Body_ -> ptr T * option error)
    (finish : ptr T -> PointsResponse -> outcome (ptr T)) (lat lon : string) (s : State) :
  length (requests (snd (via_point endpoint_of decode finish lat lon s)))
  <= length (requests s) + 2.
Proof.
  unfold via_point. pose proof (Points_requests_length lat lon s) as Hp.
  destruct (Points lat lon s) as [[[[p|] [e|]]|] s1]; cbn [snd] in *; try lia.
  pose proof (apiCall_requests_length (endpoint_of p (config s1)) s1) as Ha.
  destruct (apiCall _ s1) as [[[[res|] [e|]]|] s2]; cbn [snd] in *; try lia.
  destruct (decode _) as [v [e|]]; cbn [snd]; [lia|].
  destruct (finish v p); cbn [snd]; lia.
Qed.

Lemma run_requests_length (c : Call) (s : State) :
  length (requests (snd (run c s))) <= length (requests s) + requests_of_call c.
Proof.
  destruct c; cbn [run requests_of_call]; rewrite snd_err_of.
  - apply Points_requests_length.
  - rewrite Office_state. apply apiCall_requests_length.
  - rewrite Stations_eq. apply via_point_requests_length.
  - rewrite Forecast_eq. apply via_point_requests_length.
  - rewrite GridpointForecast_eq. apply via_point_requests_length.
  - rewrite HourlyForecast_eq. apply via_point_requests_length.
  - rewrite LatestStationObservation_state. apply apiCall_requests_length.
  - rewrite Alerts_state. cbn. apply apiCall_requests_length.
Qed.

Lemma sends_only_run_all (cs : list Call) (s : State) :
  sends_only configured_get s (run_all cs s).
Proof.
  apply (respects_run_all (sends_only configured_get)).
  - apply sends_only_refl.
  - apply sends_only_trans.
  - apply sends_only_apiCall.
  - intros s0 endpoint points. apply (sends_only_refl configured_get (store_point s0 endpoint points)).
  - intros s0 text err. split; [reflexivity|]. exists []. cbn. rewrite app_nil_r. auto.
Qed.

End Requests.

(** X2.  Whatever calls are made, the configuration stays as it is and
    the log of requests only grows, by requests that are each a GET with
    the header [Accept] and the header [User-Agent] set to the configured
    values and no other header. *)
Theorem every_request_is_a_configured_get `{Collaborators} (cs : list Call) (s : State) :
  config (run_all cs s) = config s
  /\ exists l : list Request,
       requests (run_all cs s) = (requests s ++ l)%list
       /\ Forall (configured_get (config s)) l.
Proof. apply sends_only_run_all. Qed.

(** X3.  No operation but [Alerts] writes to the standard output. *)
Theorem only_Alerts_prints `{Collaborators} (c : Call) (s : State) :
  is_Alerts c = false -> stdout (snd (run c s)) = stdout s.
Proof.
  apply (respects_run_but_Alerts (fun s0 s1 => stdout s1 = stdout s0)).
  - reflexivity.
  - intros s1 s2 s3 H12 H23. congruence.
  - intros endpoint s0. destruct (apiCall_frame endpoint s0) as (_ & _ & Hout & _). exact Hout.
  - reflexivity.
Qed.

Lemma only_Alerts_prints_witness :
  stdout (snd (@run (fake (always "oops")) (CallForecast "39.7456" "-97.0892")
                 (initial default_config)))
  = [].
Proof.
  apply (@only_Alerts_prints (fake (always "oops")) (CallForecast "39.7456" "-97.0892")
           (initial default_config)).
  reflexivity.
Defined.

(** X4.  No operation retries: a call hands at most one request to the
    transport, or two when it resolves a point first, and a sequence of
    calls at most two for each call. *)
Theorem no_operation_retries `{Collaborators} (cs : list Call) (s : State) :
  (forall c : Call,
      length (requests (snd (run c s))) <= length (requests s) + requests_of_call c)
  /\ length (requests (run_all cs s)) <= length (requests s) + 2 * length cs.
Proof.
  split; [intros c; apply run_requests_length|].
  revert s. induction cs as [|c cs IH]; intros s; cbn [run_all length]; [lia|].
  specialize (IH (snd (run c s))). pose proof (run_requests_length c s) as Hc.
  assert (requests_of_call c <= 2) by (destruct c; cbn; lia). lia.
Qed.

(** ** The cache, key by key *)

Section CacheKeys.

Context `{Collaborators}.

(** The cache [Points] leaves: the one it found, or that one with the
    call's endpoint bound to the value returned. *)
Lemma Points_cache (lat lon : string) (s : State) :
  pointsCache (snd (Points lat lon s)) = pointsCache s
  \/ (map_index (pointsCache s) (points_endpoint (config s) lat lon) = None
      /\ exists v : ptr PointsResponse,
           fst (Points lat lon s) = Return (v, None)
           /\ pointsCache (snd (Points lat lon s))
              = <[points_endpoint (config s) lat lon := v]> (pointsCache s)).
Proof.
  rewrite Points_eq. cbv zeta.
  destruct (map_index _ _) as [q|] eqn:Hidx; [left; reflexivity|].
  destruct (apiCall_frame (points_endpoint (config s) lat lon) s) as (_ & Hcache & _).
  destruct (apiCall _ s) as [[[[res|] [err|]]|] s1]; cbn [fst snd] in *; auto.
  destruct (Decode_PointsResponse _) as [points [err|]]; cbn [fst snd]; auto.
  right. split; [reflexivity|]. exists points. cbn. rewrite Hcache. auto.
Qed.

Lemma via_point_cache {T} (endpoint_of : PointsResponse -> Config -> string)
    (decode : Body_ -> ptr T * option error)
    (finish : ptr T -> PointsResponse -> outcome (ptr T)) (lat lon : string) (s : State) :
  pointsCache (snd (via_point endpoint_of decode finish lat lon s))
  = pointsCache (snd (Points lat lon s)).
Proof.
  unfold via_point.
  destruct (Points lat lon s) as [[[[p|] [e|]]|] s1]; cbn [snd]; try reflexivity.
  destruct (apiCall_frame (endpoint_of p (config s1)) s1) as (_ & Hcache & _).
  destruct (apiCall _ s1) as [[[[res|] [e|]]|] s2]; cbn [snd] in *; try exact Hcache.
  destruct (decode _) as [v [e|]]; cbn [snd]; [exact Hcache|].
  destruct (finish v p); exact Hcache.
Qed.

Lemma with_cache_same (s : State) : with_cache s (pointsCache s) = s.
Proof. destruct s; reflexivity. Qed.

(** [apiCall] runs the same whatever the cache holds. *)
Lemma apiCall_with_cache (endpoint : string) (s : State)
    (m : gmap string (ptr PointsResponse)) :
  apiCall endpoint (with_cache s m)
  = (fst (apiCall endpoint s), with_cache (snd (apiCall endpoint s)) m).
Proof.
  rewrite !apiCall_eq. cbv zeta. cbn [config requests with_cache].
  destruct (http_NewRequest _); reflexivity.
Qed.

End CacheKeys.

(** X5.  A call of [Points] changes the cache at no key but the endpoint
    it builds from the base URL and the coordinates; when that key holds a
    [PointsResponse] the call changes nothing at all; and after a call that
    returns no error the key holds the value returned.  [Stations] and the
    three forecast operations leave the cache as their call of [Points]
    leaves it. *)
Theorem Points_writes_its_own_key_only `{Collaborators} (lat lon : string) (s : State) :
  (forall k : string,
      k <> points_endpoint (config s) lat lon ->
      pointsCache (snd (Points lat lon s)) !! k = pointsCache s !! k)
  /\ (forall p : PointsResponse,
        map_index (pointsCache s) (points_endpoint (config s) lat lon) = Some p ->
        Points lat lon s = (Return (Some p, None), s))
  /\ (forall (v : ptr PointsResponse) (s' : State),
        Points lat lon s = (Return (v, None), s') ->
        map_index (pointsCache s') (points_endpoint (config s) lat lon) = v)
  /\ pointsCache (snd (Stations lat lon s)) = pointsCache (snd (Points lat lon s))
  /\ pointsCache (snd (Forecast lat lon s)) = pointsCache (snd (Points lat lon s))
  /\ pointsCache (snd (GridpointForecast lat lon s)) = pointsCache (snd (Points lat lon s))
  /\ pointsCache (snd (HourlyForecast lat lon s)) = pointsCache (snd (Points lat lon s)).
Proof.
  split; [|split; [|split]].
  - intros k Hk. destruct (Points_cache lat lon s) as [-> | (_ & v & _ & ->)];
      [reflexivity | apply lookup_insert_ne; congruence].
  - intros p. apply Points_hit.
  - intros v s'. rewrite Points_eq. cbv zeta.
    destruct (map_index (pointsCache s) _) as [q|] eqn:Hidx.
    + intros [= <- <-]. exact Hidx.
    + destruct (apiCall _ s) as [[[[res|] [err|]]|] s1]; try discriminate.
      destruct (Decode_PointsResponse _) as [points [err|]]; [discriminate|].
      intros [= <- <-]. cbn. apply map_index_insert_eq.
  - rewrite Stations_eq, Forecast_eq, GridpointForecast_eq, HourlyForecast_eq.
    rewrite !via_point_cache. auto.
Qed.

(** X6.  A coordinate pair that was resolved once is not fetched again:
    after a call of [Points] that returned a [PointsResponse], and after
    whatever calls are made then, a call for the same coordinates returns
    that same [PointsResponse], hands nothing to the transport and leaves
    the state as it is, whatever the upstream would answer by now. *)
Theorem Points_resolved_once_never_refetched `{Collaborators} (cs : list Call)
    (lat lon : string) (s s1 : State) (p : PointsResponse) :
  Points lat lon s = (Return (Some p, None), s1) ->
  Points lat lon (run_all cs s1) = (Return (Some p, None), run_all cs s1).
Proof.
  intros Hfirst. destruct (Points_success lat lon s s1 p Hfirst) as (Hcfg & Hidx & _).
  destruct (sends_only_run_all cs s1) as [Hcfg' _].
  apply Points_hit. rewrite Hcfg', Hcfg.
  destruct (grows_run_all cs s1) as [_ Hkeep]. apply Hkeep. exact Hidx.
Qed.

Lemma Points_resolved_once_never_refetched_witness :
  let W := fake (first_then "{}" "oops") in
  let s1 := snd (@Points W "39.7456" "-97.0892" (initial default_config)) in
  let later := @run_all W [CallAlerts "39.7456" "-97.0892"; CallForecast "40.0" "-98.0"] s1 in
  @Points W "39.7456" "-97.0892" later = (Return (Some sample_point, None), later).
Proof.
  cbv zeta.
  apply (@Points_resolved_once_never_refetched (fake (first_then "{}" "oops"))
           [CallAlerts "39.7456" "-97.0892"; CallForecast "40.0" "-98.0"]
           "39.7456" "-97.0892" (initial default_config)).
  vm_compute. reflexivity.
Defined.

(** X7.  The key of the cache is the endpoint as formatted, not the pair
    of coordinates: two pairs that format to the same endpoint (the comma
    may stand in either argument) share one entry, so that after a call
    for one pair that returned a [PointsResponse], a call for the other
    returns that same [PointsResponse] without a request. *)
Theorem Points_key_is_the_formatted_endpoint `{Collaborators} (lat lon lat' lon' : string)
    (s s1 : State) (p : PointsResponse) :
  points_endpoint (config s) lat lon = points_endpoint (config s) lat' lon' ->
  Points lat lon s = (Return (Some p, None), s1) ->
  Points lat' lon' s1 = (Return (Some p, None), s1).
Proof.
  intros Hkey Hfirst. destruct (Points_success lat lon s s1 p Hfirst) as (Hcfg & Hidx & _).
  apply Points_hit. rewrite Hcfg, <- Hkey. exact Hidx.
Qed.

Lemma Points_key_is_the_formatted_endpoint_witness :
  let W := fake (first_then "{}" "oops") in
  let s1 := snd (@Points W "39.7456,-97" ".0892" (initial default_config)) in
  @Points W "39.7456" "-97,.0892" s1 = (Return (Some sample_point, None), s1).
Proof.
  cbv zeta.
  apply (@Points_key_is_the_formatted_endpoint (fake (first_then "{}" "oops"))
           "39.7456,-97" ".0892" "39.7456" "-97,.0892" (initial default_config)).
  - vm_compute. reflexivity.
  - vm_compute. reflexivity.
Defined.

(** X8.  [Office], [LatestStationObservation] and [Alerts] neither read
    nor write the point cache: run with any other cache they return the
    same and end in the same state, the cache being the one they were
    given. *)
Theorem operations_without_a_point_ignore_the_cache `{Collaborators} (s : State)
    (m : gmap string (ptr PointsResponse)) :
  (forall id : string,
      Office id (with_cache s m) = (fst (Office id s), with_cache (snd (Office id s)) m))
  /\ (forall stationID : string,
        LatestStationObservation stationID (with_cache s m)
        = (fst (LatestStationObservation stationID s),
           with_cache (snd (LatestStationObservation stationID s)) m))
  /\ (forall lat long : string,
        Alerts lat long (with_cache s m)
        = (fst (Alerts lat long s), with_cache (snd (Alerts lat long s)) m))
  /\ (forall id : string, pointsCache (snd (Office id s)) = pointsCache s)
  /\ (forall stationID : string,
        pointsCache (snd (LatestStationObservation stationID s)) = pointsCache s)
  /\ (forall lat long : string, pointsCache (snd (Alerts lat long s)) = pointsCache s).
Proof.
  assert (Hfetch : forall endpoint, pointsCache (snd (apiCall endpoint s)) = pointsCache s).
  { intros endpoint. destruct (apiCall_frame endpoint s) as (_ & Hcache & _). exact Hcache. }
  split; [|split; [|split; [|split; [|split]]]];
    try (intros id; rewrite Office_state; apply Hfetch);
    try (intros stationID; rewrite LatestStationObservation_state; apply Hfetch);
    try (intros lat long; rewrite Alerts_state; cbn; apply Hfetch).
  - intros id. unfold Office, bind, get, deref. cbn [config with_cache].
    rewrite apiCall_with_cache.
    destruct (apiCall _ s) as [[[[res|] [err|]]|] s1]; cbn; try reflexivity.
    destruct (Decode_OfficeResponse _) as [office [err|]]; reflexivity.
  - intros stationID. unfold LatestStationObservation, bind, deref.
    rewrite apiCall_with_cache.
    destruct (apiCall _ s) as [[[[res|] [err|]]|] s1]; cbn; try reflexivity.
    destruct (Decode_Observation _) as [observation [err|]]; reflexivity.
  - intros lat long. unfold Alerts, bind, get, deref, Println. cbn [config with_cache].
    rewrite apiCall_with_cache.
    destruct (apiCall _ s) as [[[[res|] [err|]]|] s1]; cbn; try reflexivity.
    destruct (read_error (Body res)); cbn; [reflexivity|].
    destruct (Unmarshal _ _) as [r [err|]]; reflexivity.
Qed.

(** ** How the operations that resolve a point go on *)

Section AfterThePoint.

Context `{Collaborators}.

Lemma Points_no_panic (lat lon : string) (s : State) : fst (Points lat lon s) <> Panic.
Proof.
  rewrite Points_eq. cbv zeta. destruct (map_index _ _); [discriminate|].
  destruct (apiCall_cases (points_endpoint (config s) lat lon) s) as [[res Hr]|[err Hr]];
    destruct (apiCall _ s) as [r s1]; cbn [fst] in Hr; subst r; [|discriminate].
  destruct (Decode_PointsResponse _) as [points [err|]]; discriminate.
Qed.

Lemma apiCall_no_panic (endpoint : string) (s : State) : fst (apiCall endpoint s) <> Panic.
Proof. destruct (apiCall_cases endpoint s) as [[res ->]|[err ->]]; discriminate. Qed.

Variable T : Type.
Variable endpoint_of : PointsResponse -> Config -> string.
Variable decode : Body_ -> ptr T * option error.
Variable finish : ptr T -> PointsResponse -> outcome (ptr T).

(** An error of the point resolution ends the call: the error is
    returned, and the state is the one [Points] ended in. *)
Lemma via_point_aborts (lat lon : string) (s : State) (v : ptr PointsResponse) (e : error) :
  fst (Points lat lon s) = Return (v, Some e) ->
  via_point endpoint_of decode finish lat lon s
  = (Return (None, Some e), snd (Points lat lon s)).
Proof.
  unfold via_point. destruct (Points lat lon s) as [[[[p|] [e0|]]|] s1]; cbn;
    try discriminate; intros [= _ ->]; reflexivity.
Qed.

(** The call panics exactly when it has to go through a nil pointer: the
    point, or what [finish] is given. *)
Lemma via_point_panics (lat lon : string) (s : State) :
  fst (via_point endpoint_of decode finish lat lon s) = Panic <->
  fst (Points lat lon s) = Return (None, None)
  \/ exists (p : PointsResponse) (s1 : State) (res : Response) (v : ptr T),
       Points lat lon s = (Return (Some p, None), s1)
       /\ fst (apiCall (endpoint_of p (config s1)) s1) = Return (Some res, None)
       /\ decode (Body res) = (v, None)
       /\ finish v p = Panic.
Proof.
  unfold via_point. pose proof (Points_no_panic lat lon s) as Hnp.
  destruct (Points lat lon s) as [[[[p|] [e|]]|] s1] eqn:Hpoint; cbn [fst] in *.
  - split; [discriminate|]. intros [Hnil | (p' & s1' & res & v & Hp & _)]; discriminate.
  - destruct (apiCall_cases (endpoint_of p (config s1)) s1) as [[res Hr]|[err Hr]];
      destruct (apiCall _ s1) as [r s2] eqn:Hcall; cbn [fst] in Hr; subst r.
    + destruct (decode (Body res)) as [v [e|]] eqn:Hdec; cbn [fst].
      * split; [discriminate|].
        intros [Hnil | (p' & s1' & res' & v' & Hp & Hf & Hd & _)]; [discriminate|].
        injection Hp as <- <-. rewrite Hcall in Hf. injection Hf as <-. congruence.
      * destruct (finish v p) eqn:Hfin; cbn [fst].
        -- split; [discriminate|].
           intros [Hnil | (p' & s1' & res' & v' & Hp & Hf & Hd & Hfin')]; [discriminate|].
           injection Hp as <- <-. rewrite Hcall in Hf. injection Hf as <-.
           rewrite Hdec in Hd. injection Hd as <-. congruence.
        -- split; [|reflexivity]. intros _. right. exists p, s1, res, v.
           rewrite Hcall. auto.
    + split; [discriminate|].
      intros [Hnil | (p' & s1' & res' & v' & Hp & Hf & _)]; [discriminate|].
      injection Hp as <- <-. rewrite Hcall in Hf. discriminate.
  - split; [discriminate|]. intros [Hnil | (p' & s1' & res & v & Hp & _)]; discriminate.
  - split; [intros _; left; reflexivity | reflexivity].
  - contradiction.
Qed.

End AfterThePoint.

(** X9.  When the point resolution returns an error, [Stations] and the
    three forecast operations return that error and no value and do
    nothing further: the state they end in is the one [Points] ended in,
    so that no second request goes out. *)
Theorem point_error_ends_the_call `{Collaborators} (lat lon : string) (s : State)
    (v : ptr PointsResponse) (e : error) :
  fst (Points lat lon s) = Return (v, Some e) ->
  Stations lat lon s = (Return (None, Some e), snd (Points lat lon s))
  /\ Forecast lat lon s = (Return (None, Some e), snd (Points lat lon s))
  /\ GridpointForecast lat lon s = (Return (None, Some e), snd (Points lat lon s))
  /\ HourlyForecast lat lon s = (Return (None, Some e), snd (Points lat lon s)).
Proof.
  intros Hpoint.
  rewrite Stations_eq, Forecast_eq, GridpointForecast_eq, HourlyForecast_eq.
  repeat split; eapply via_point_aborts; exact Hpoint.
Qed.

Lemma point_error_ends_the_call_witness :
  let W := fake (status 500 "500 Internal Server Error") in
  let s := initial default_config in
  @Forecast W "39.7456" "-97.0892" s
  = (Return (None, Some (ErrorsNew "500 500 Internal Server Error")),
     snd (@Points W "39.7456" "-97.0892" s)).
Proof.
  cbv zeta.
  refine (proj1 (proj2 (@point_error_ends_the_call
                          (fake (status 500 "500 Internal Server Error"))
                          "39.7456" "-97.0892" (initial default_config) None
                          (ErrorsNew "500 500 Internal Server Error") _))).
  vm_compute. reflexivity.
Defined.

(** X10.  With the point in the cache, [Stations] and the three forecast
    operations hand one request to the transport and no more: the GET for
    the endpoint of the cached point (for the forecasts with the units
    query), the round trip for the point being saved. *)
Theorem cached_point_saves_the_round_trip `{Collaborators} (lat lon : string) (s : State)
    (p : PointsResponse) :
  map_index (pointsCache s) (points_endpoint (config s) lat lon) = Some p ->
  outbound (Stations lat lon) s
  = get_of (config s) (https (EndpointObservationStations p))
  /\ outbound (Forecast lat lon) s
     = get_of (config s) (https (EndpointForecast p +:+ units_query (config s)))
  /\ outbound (GridpointForecast lat lon) s
     = get_of (config s) (https (EndpointForecastGridData p +:+ units_query (config s)))
  /\ outbound (HourlyForecast lat lon) s
     = get_of (config s) (https (EndpointForecastHourly p +:+ units_query (config s))).
Proof.
  intros Hhit. pose proof (Points_hit lat lon s p Hhit) as Hpoint. unfold outbound.
  rewrite Stations_eq, Forecast_eq, GridpointForecast_eq, HourlyForecast_eq.
  rewrite !(via_point_requests _ _ _ _ lat lon s s p Hpoint). auto.
Qed.

Lemma cached_point_saves_the_round_trip_witness :
  let W := fake (always "{}") in
  let s1 := snd (@Points W "39.7456" "-97.0892" (initial default_config)) in
  @outbound _ (@Forecast W "39.7456" "-97.0892") s1
  = [request_for default_config "https://api.weather.gov/gridpoints/TOP/32,81/forecast"].
Proof.
  cbv zeta.
  refine (proj1 (proj2 (@cached_point_saves_the_round_trip (fake (always "{}"))
                          "39.7456" "-97.0892"
                          (snd (@Points (fake (always "{}")) "39.7456" "-97.0892"
                                  (initial default_config)))
                          sample_point _))).
  vm_compute. reflexivity.
Defined.

(** ** Panics *)

Section Panics.

Context `{Collaborators}.

Lemma attach_point_panics {F} (forecast : ptr (WithPoint F)) (p : PointsResponse) :
  attach_point forecast p = Panic <-> forecast = None.
Proof. destruct forecast; cbn; split; congruence. Qed.

Lemma Points_nil (lat lon : string) (s : State) :
  fst (Points lat lon s) = Return (None, None) <->
  map_index (pointsCache s) (points_endpoint (config s) lat lon) = None
  /\ exists res : Response,
       fst (apiCall (points_endpoint (config s) lat lon) s) = Return (Some res, None)
       /\ Decode_PointsResponse (Body res) = (None, None).
Proof.
  rewrite Points_eq. cbv zeta.
  destruct (map_index _ _) as [q|]; [split; [discriminate | intros [? _]; discriminate]|].
  destruct (apiCall_cases (points_endpoint (config s) lat lon) s) as [[res Hr]|[err Hr]];
    destruct (apiCall _ s) as [r s1]; cbn [fst] in Hr; subst r; cbn [fst].
  - destruct (Decode_PointsResponse (Body res)) as [points [err|]] eqn:Hdec; cbn [fst].
    + split; [discriminate|]. intros (_ & res' & Hf & Hd).
      injection Hf as Hres. subst res'. rewrite Hdec in Hd. discriminate Hd.
    + split.
      * intros [= ->]. split; [reflexivity|]. exists res. auto.
      * intros (_ & res' & Hf & Hd).
        injection Hf as Hres. subst res'. rewrite Hdec in Hd. injection Hd as ->. reflexivity.
  - split; [discriminate|]. intros (_ & res' & Hf & _). discriminate.
Qed.

Lemma Office_no_panic (id : string) (s : State) : fst (Office id s) <> Panic.
Proof.
  unfold Office, bind, get, deref. cbn.
  destruct (apiCall_cases (BaseURL (config s) +:+ "/offices/" +:+ id) s)
    as [[res Hr]|[err Hr]];
    destruct (apiCall _ s) as [r s1]; cbn [fst] in Hr; subst r; cbn; [|discriminate].
  destruct (Decode_OfficeResponse _) as [office [err|]]; discriminate.
Qed.

Lemma LatestStationObservation_no_panic (stationID : string) (s : State) :
  fst (LatestStationObservation stationID s) <> Panic.
Proof.
  unfold LatestStationObservation, bind, deref.
  destruct (apiCall_cases (stationID +:+ "/observations/latest") s) as [[res Hr]|[err Hr]];
    destruct (apiCall _ s) as [r s1]; cbn [fst] in Hr; subst r; cbn; [|discriminate].
  destruct (Decode_Observation _) as [observation [err|]]; discriminate.
Qed.

Lemma Alerts_no_panic (lat long : string) (s : State) : fst (Alerts lat long s) <> Panic.
Proof.
  rewrite Alerts_eq.
  destruct (apiCall_cases (alerts_endpoint (config s) lat long) s) as [[res ->]|[err ->]];
    discriminate.
Qed.

End Panics.

(** X11.  [apiCall], [Points], [Office], [LatestStationObservation] and
    [Alerts] never panic.  [Stations] panics exactly when [Points] returns
    a nil point with a nil error, which it does exactly when the endpoint
    is not cached, the fetch succeeds and the decoder leaves the pointer
    nil without an error; a forecast operation panics exactly then, or when
    the decoder leaves the forecast nil without an error. *)
Theorem panics_are_nil_dereferences `{Collaborators} (lat lon : string) (s : State) :
  ((forall endpoint : string, fst (apiCall endpoint s) <> Panic)
   /\ fst (Points lat lon s) <> Panic
   /\ (forall id : string, fst (Office id s) <> Panic)
   /\ (forall stationID : string, fst (LatestStationObservation stationID s) <> Panic)
   /\ fst (Alerts lat lon s) <> Panic)
  /\ (fst (Points lat lon s) = Return (None, None) <->
      map_index (pointsCache s) (points_endpoint (config s) lat lon) = None
      /\ exists res : Response,
           fst (apiCall (points_endpoint (config s) lat lon) s) = Return (Some res, None)
           /\ Decode_PointsResponse (Body res) = (None, None))
  /\ (fst (Stations lat lon s) = Panic <-> fst (Points lat lon s) = Return (None, None))
  /\ (fst (Forecast lat lon s) = Panic <->
      fst (Points lat lon s) = Return (None, None)
      \/ exists (p : PointsResponse) (s1 : State) (res : Response),
           Points lat lon s = (Return (Some p, None), s1)
           /\ fst (apiCall (EndpointForecast p +:+ units_query (config s1)) s1)
              = Return (Some res, None)
           /\ Decode_ForecastResponse (Body res) = (None, None))
  /\ (fst (GridpointForecast lat lon s) = Panic <->
      fst (Points lat lon s) = Return (None, None)
      \/ exists (p : PointsResponse) (s1 : State) (res : Response),
           Points lat lon s = (Return (Some p, None), s1)
           /\ fst (apiCall (EndpointForecastGridData p +:+ units_query (config s1)) s1)
              = Return (Some res, None)
           /\ Decode_GridpointForecastResponse (Body res) = (None, None))
  /\ (fst (HourlyForecast lat lon s) = Panic <->
      fst (Points lat lon s) = Return (None, None)
      \/ exists (p : PointsResponse) (s1 : State) (res : Response),
           Points lat lon s = (Return (Some p, None), s1)
           /\ fst (apiCall (EndpointForecastHourly p +:+ units_query (config s1)) s1)
              = Return (Some res, None)
           /\ Decode_HourlyForecastResponse (Body res) = (None, None)).
Proof.
  assert (Hforecast : forall F (endpoint_of : PointsResponse -> Config -> string)
                        (decode : Body_ -> ptr (WithPoint F) * option error),
             fst (via_point endpoint_of decode attach_point lat lon s) = Panic <->
             fst (Points lat lon s) = Return (None, None)
             \/ exists (p : PointsResponse) (s1 : State) (res : Response),
                  Points lat lon s = (Return (Some p, None), s1)
                  /\ fst (apiCall (endpoint_of p (config s1)) s1) = Return (Some res, None)
                  /\ decode (Body res) = (None, None)).
  { intros F endpoint_of decode. rewrite via_point_panics. split.
    - intros [Hnil | (p & s1 & res & v & Hp & Hf & Hd & Hfin)]; [auto|].
      apply attach_point_panics in Hfin. subst v. right. eauto 6.
    - intros [Hnil | (p & s1 & res & Hp & Hf & Hd)]; [auto|].
      right. exists p, s1, res, None. auto. }
  split; [|split; [|split; [|split; [|split]]]].
  - repeat split.
    + intros endpoint. apply apiCall_no_panic.
    + apply Points_no_panic.
    + intros id. apply Office_no_panic.
    + intros stationID. apply LatestStationObservation_no_panic.
    + apply Alerts_no_panic.
  - apply Points_nil.
  - rewrite Stations_eq, via_point_panics. split; [|auto].
    intros [Hnil | (p & s1 & res & v & _ & _ & _ & Hfin)]; [exact Hnil | discriminate].
  - rewrite Forecast_eq. apply Hforecast.
  - rewrite GridpointForecast_eq. apply Hforecast.
  - rewrite HourlyForecast_eq. apply Hforecast.
Qed.

(** X12.  A forecast operation returns a forecast and no error exactly
    when the point resolves, the fetch of the point's endpoint answers 200
    and the decoder makes a forecast of the body; and what it returns then
    is what the decoder made, field for field, with [Point] set to the
    resolved point in place of whatever the decoder had left there. *)
Theorem forecast_is_the_decoded_body_with_the_point `{Collaborators} (lat lon : string)
    (s : State) :
  (forall (s' : State) (f : ForecastResponse),
      Forecast lat lon s = (Return (Some f, None), s') <->
      exists (p : PointsResponse) (s1 : State) (res : Response) (f0 : ForecastResponse),
        Points lat lon s = (Return (Some p, None), s1)
        /\ apiCall (EndpointForecast p +:+ units_query (config s1)) s1
           = (Return (Some res, None), s')
        /\ Decode_ForecastResponse (Body res) = (Some f0, None)
        /\ f = {| wire := wire f0; Point := Some p |})
  /\ (forall (s' : State) (f : GridpointForecastResponse),
        GridpointForecast lat lon s = (Return (Some f, None), s') <->
        exists (p : PointsResponse) (s1 : State) (res : Response)
               (f0 : GridpointForecastResponse),
          Points lat lon s = (Return (Some p, None), s1)
          /\ apiCall (EndpointForecastGridData p +:+ units_query (config s1)) s1
             = (Return (Some res, None), s')
          /\ Decode_GridpointForecastResponse (Body res) = (Some f0, None)
          /\ f = {| wire := wire f0; Point := Some p |})
  /\ (forall (s' : State) (f : HourlyForecastResponse),
        HourlyForecast lat lon s = (Return (Some f, None), s') <->
        exists (p : PointsResponse) (s1 : State) (res : Response)
               (f0 : HourlyForecastResponse),
          Points lat lon s = (Return (Some p, None), s1)
          /\ apiCall (EndpointForecastHourly p +:+ units_query (config s1)) s1
             = (Return (Some res, None), s')
          /\ Decode_HourlyForecastResponse (Body res) = (Some f0, None)
          /\ f = {| wire := wire f0; Point := Some p |}).
Proof.
  assert (Hshape : forall F (endpoint_of : PointsResponse -> Config -> string)
                     (decode : Body_ -> ptr (WithPoint F) * option error)
                     (s' : State) (f : WithPoint F),
             via_point endpoint_of decode attach_point lat lon s
             = (Return (Some f, None), s') <->
             exists (p : PointsResponse) (s1 : State) (res : Response) (f0 : WithPoint F),
               Points lat lon s = (Return (Some p, None), s1)
               /\ apiCall (endpoint_of p (config s1)) s1 = (Return (Some res, None), s')
               /\ decode (Body res) = (Some f0, None)
               /\ f = {| wire := wire f0; Point := Some p |}).
  { intros F endpoint_of decode s' f. split.
    - intros Hcall.
      apply via_point_success in Hcall as (p & s1 & res & v & Hp & Hf & Hd & Hfin).
      destruct v as [f0|]; cbn in Hfin; [|discriminate]. injection Hfin as <-.
      exists p, s1, res, f0. auto.
    - intros (p & s1 & res & f0 & Hp & Hf & Hd & ->).
      eapply via_point_forward; eauto. }
  split; [|split]; intros s' f.
  - rewrite Forecast_eq. exact (Hshape _ _ _ s' f).
  - rewrite GridpointForecast_eq. exact (Hshape _ _ _ s' f).
  - rewrite HourlyForecast_eq. exact (Hshape _ _ _ s' f).
Qed.

Lemma forecast_is_the_decoded_body_with_the_point_witness :
  let W := fake (first_then "{}" "{7}") in
  let s := initial default_config in
  let s1 := snd (@Points W "39.7456" "-97.0892" s) in
  @Forecast W "39.7456" "-97.0892" s
  = (Return (Some {| wire := "{7}"; Point := Some sample_point |}, None),
     snd (@apiCall W (EndpointForecast sample_point) s1))
  /\ @GridpointForecast W "39.7456" "-97.0892" s
     = (Return (Some {| wire := "{7}"; Point := Some sample_point |}, None),
        snd (@apiCall W (EndpointForecastGridData sample_point) s1))
  /\ @HourlyForecast W "39.7456" "-97.0892" s
     = (Return (Some {| wire := "{7}"; Point := Some sample_point |}, None),
        snd (@apiCall W (EndpointForecastHourly sample_point) s1)).
Proof.
  cbv zeta.
  destruct (@forecast_is_the_decoded_body_with_the_point (fake (first_then "{}" "{7}"))
              "39.7456" "-97.0892" (initial default_config))
    as (Hforecast & Hgridpoint & Hhourly).
  split; [|split].
  - apply Hforecast.
    exists sample_point,
      (snd (@Points (fake (first_then "{}" "{7}")) "39.7456" "-97.0892"
              (initial default_config))),
      (ok "{7}"), {| wire := "{7}"; Point := None |}.
    repeat split; vm_compute; reflexivity.
  - apply Hgridpoint.
    exists sample_point,
      (snd (@Points (fake (first_then "{}" "{7}")) "39.7456" "-97.0892"
              (initial default_config))),
      (ok "{7}"), {| wire := "{7}"; Point := None |}.
    repeat split; vm_compute; reflexivity.
  - apply Hhourly.
    exists sample_point,
      (snd (@Points (fake (first_then "{}" "{7}")) "39.7456" "-97.0892"
              (initial default_config))),
      (ok "{7}"), {| wire := "{7}"; Point := None |}.
    repeat split; vm_compute; reflexivity.
Defined.

(** ** The fetch, once more, and the operations without a point *)

(** X13.  [apiCall] returns a response exactly when [http.NewRequest]
    accepts the rewritten URL, the transport answers and the status of the
    answer is 200, and the response returned is the transport's; any other
    status, another 2xx as well, is an error. *)
Theorem apiCall_returns_a_response_exactly_for_200 `{Collaborators} (endpoint : string)
    (s : State) (res : Response) :
  fst (apiCall endpoint s) = Return (Some res, None) <->
  http_NewRequest (https endpoint) = None
  /\ http_Do (requests s) (request_for (config s) (https endpoint)) = inl res
  /\ StatusCode res = 200%Z.
Proof.
  rewrite apiCall_eq. cbv zeta.
  destruct (http_NewRequest _) as [e|]; cbn [fst];
    [split; [discriminate | intros (Hn & _); discriminate]|].
  destruct (http_Do _ _) as [res0|e]; [|split; [discriminate | intros (_ & Hd & _); discriminate]].
  destruct (Z.eqb_spec (StatusCode res0) 200) as [Hcode|Hcode].
  - split.
    + intros [= ->]. auto.
    + intros (_ & [= ->] & _). reflexivity.
  - split; [discriminate|]. intros (_ & [= ->] & Hc). contradiction.
Qed.

(** X14.  When [http.NewRequest] refuses the URL built for a pair of
    coordinates that is not cached, [Points] returns that error with the
    state exactly as it was: nothing is sent, nothing cached, nothing
    printed; and so do [Stations] and the three forecast operations. *)
Theorem refused_url_changes_nothing `{Collaborators} (lat lon : string) (s : State)
    (e : error) :
  http_NewRequest (https (points_endpoint (config s) lat lon)) = Some e ->
  map_index (pointsCache s) (points_endpoint (config s) lat lon) = None ->
  Points lat lon s = (Return (None, Some e), s)
  /\ Stations lat lon s = (Return (None, Some e), s)
  /\ Forecast lat lon s = (Return (None, Some e), s)
  /\ GridpointForecast lat lon s = (Return (None, Some e), s)
  /\ HourlyForecast lat lon s = (Return (None, Some e), s).
Proof.
  intros Hnew Hmiss.
  assert (Hpoint : Points lat lon s = (Return (None, Some e), s)).
  { rewrite Points_eq. cbv zeta. rewrite Hmiss, apiCall_eq. cbv zeta. rewrite Hnew.
    reflexivity. }
  split; [exact Hpoint|].
  rewrite Stations_eq, Forecast_eq, GridpointForecast_eq, HourlyForecast_eq.
  unfold via_point. rewrite Hpoint. auto.
Qed.

Lemma refused_url_changes_nothing_witness :
  let W := strict (always "{}") in
  let lat := "39.7456" +:+ String "010" "" in
  @Points W lat "-97.0892" (initial default_config)
  = (Return (None, Some (Foreign "net/url: invalid control character in URL")),
     initial default_config)
  /\ @Forecast W lat "-97.0892" (initial default_config)
     = (Return (None, Some (Foreign "net/url: invalid control character in URL")),
        initial default_config).
Proof.
  cbv zeta.
  pose proof (@refused_url_changes_nothing (strict (always "{}"))
                ("39.7456" +:+ String "010" "") "-97.0892" (initial default_config)
                (Foreign "net/url: invalid control character in URL")
                ltac:(vm_compute; reflexivity) ltac:(vm_compute; reflexivity))
    as (Hp & _ & Hf & _).
  split; [exact Hp | exact Hf].
Defined.


(** X16.  [Alerts] prints only when the decoding fails: nothing when it
    returns no error, nothing when the fetch fails, and otherwise one line,
    made of one of its two texts and the very error it returns. *)
Theorem Alerts_prints_the_error_it_returns `{Collaborators} (lat long : string) (s : State) :
  (forall r : list Alert,
      fst (Alerts lat long s) = Return (r, None) ->
      stdout (snd (Alerts lat long s)) = stdout s)
  /\ (forall e : error,
        fst (apiCall (alerts_endpoint (config s) lat long) s) = Return (None, Some e) ->
        stdout (snd (Alerts lat long s)) = stdout s)
  /\ (forall (res : Response) (r : list Alert) (e : error),
        fst (apiCall (alerts_endpoint (config s) lat long) s) = Return (Some res, None) ->
        fst (Alerts lat long s) = Return (r, Some e) ->
        exists text : string,
          (text = "error reading response: " \/ text = "error unmarshaling response: ")
          /\ stdout (snd (Alerts lat long s)) = (stdout s ++ [(text, e)])%list).
Proof.
  destruct (apiCall_frame (alerts_endpoint (config s) lat long) s) as (_ & _ & Hout & _).
  repeat split.
  - intros r. rewrite Alerts_eq, Alerts_state. cbv zeta. cbn [stdout]. rewrite Hout.
    destruct (fst (apiCall _ s)) as [[[res|] [err|]]|]; try discriminate;
      try (intros _; apply app_nil_r).
    unfold decode_alerts, alerts_diagnostic.
    destruct (ReadAll (Body res)) as [bytes [err|]]; [discriminate|].
    destruct (Unmarshal bytes _) as [r' [err|]]; [discriminate|]. intros _. apply app_nil_r.
  - intros e Hfetch. rewrite Alerts_state. cbv zeta. cbn [stdout].
    rewrite Hout, Hfetch. apply app_nil_r.
  - intros res r e Hfetch. rewrite Alerts_eq, Alerts_state. cbv zeta. cbn [stdout].
    rewrite Hout, Hfetch. unfold decode_alerts, alerts_diagnostic.
    destruct (ReadAll (Body res)) as [bytes [err|]].
    + intros [= _ ->]. eauto.
    + destruct (Unmarshal bytes _) as [r' [err|]]; cbn [snd]; [|discriminate].
      intros [= _ ->]. eauto.
Qed.

Lemma Alerts_prints_the_error_it_returns_witness :
  stdout (snd (@Alerts (fake (broken cut_body)) "39.7456" "-97.0892" (initial default_config)))
  = [("error reading response: ", Foreign "unexpected EOF")]
  /\ stdout (snd (@Alerts (fake (always cut_body)) "39.7456" "-97.0892"
                    (initial default_config)))
     = [("error unmarshaling response: ", Json json.SyntaxError)]
  /\ stdout (snd (@Alerts (fake unreachable) "39.7456" "-97.0892" (initial default_config)))
     = [].
Proof.
  split; [|split].
  - destruct (proj2 (proj2 (@Alerts_prints_the_error_it_returns (fake (broken cut_body))
                              "39.7456" "-97.0892" (initial default_config)))
                {| StatusCode := 200; Status := "200 OK";
                   Body := {| data := cut_body;
                              read_error := Some (Foreign "unexpected EOF") |} |}
                [] (Foreign "unexpected EOF")
                ltac:(vm_compute; reflexivity) ltac:(vm_compute; reflexivity))
      as (text & _ & _).
    vm_compute. reflexivity.
  - destruct (proj2 (proj2 (@Alerts_prints_the_error_it_returns (fake (always cut_body))
                              "39.7456" "-97.0892" (initial default_config)))
                (ok cut_body) [] (Json json.SyntaxError)
                ltac:(vm_compute; reflexivity) ltac:(vm_compute; reflexivity))
      as (text & _ & _).
    vm_compute. reflexivity.
  - refine (proj1 (proj2 (@Alerts_prints_the_error_it_returns (fake unreachable)
                            "39.7456" "-97.0892" (initial default_config)))
              (Foreign "dial tcp: connect: network is unreachable") _).
    vm_compute. reflexivity.
Defined.


(** X18.  No operation returns a value together with an error: with an
    error, the pointer returned is nil, the collection of alerts is empty
    and the observation is the zero value. *)
Theorem an_error_comes_with_no_value `{Collaborators} (lat lon : string) (s : State)
    (e : error) :
  (forall v, fst (Points lat lon s) = Return (v, Some e) -> v = None)
  /\ (forall id v, fst (Office id s) = Return (v, Some e) -> v = None)
  /\ (forall v, fst (Stations lat lon s) = Return (v, Some e) -> v = None)
  /\ (forall v, fst (Forecast lat lon s) = Return (v, Some e) -> v = None)
  /\ (forall v, fst (GridpointForecast lat lon s) = Return (v, Some e) -> v = None)
  /\ (forall v, fst (HourlyForecast lat lon s) = Return (v, Some e) -> v = None)
  /\ (forall stationID v,
        fst (LatestStationObservation stationID s) = Return (v, Some e) ->
        v = Observation_zero)
  /\ (forall v, fst (Alerts lat lon s) = Return (v, Some e) -> v = []).
Proof.
  repeat split.
  - intros v Hcall. destruct (Points lat lon s) as [r s'] eqn:Hp. cbn [fst] in Hcall. subst r.
    apply (Points_failure lat lon s s' v e Hp).
  - intros id v. unfold Office, bind, get, deref. cbn.
    destruct (apiCall _ s) as [[[[res|] [err|]]|] s1]; cbn; try discriminate;
      try (intros [= <- _]; reflexivity).
    destruct (Decode_OfficeResponse _) as [office [err|]]; cbn; [|discriminate].
    intros [= <- _]. reflexivity.
  - intros v. rewrite Stations_eq. intros Hcall. eapply via_point_error. exact Hcall.
  - intros v. rewrite Forecast_eq. intros Hcall. eapply via_point_error. exact Hcall.
  - intros v. rewrite GridpointForecast_eq. intros Hcall. eapply via_point_error. exact Hcall.
  - intros v. rewrite HourlyForecast_eq. intros Hcall. eapply via_point_error. exact Hcall.
  - intros stationID v. unfold LatestStationObservation, bind, deref.
    destruct (apiCall _ s) as [[[[res|] [err|]]|] s1]; cbn; try discriminate;
      try (intros [= <- _]; reflexivity).
    destruct (Decode_Observation _) as [observation [err|]]; cbn; [|discriminate].
    intros [= <- _]. reflexivity.
  - intros v Hcall. eapply Alerts_error. exact Hcall.
Qed.
